(** * AnthroScore: a shallow embedding of [get_anthroscore.py]

    The script has two stages.  The sentence extractor
    ([parse_sentences_from_file]) walks the parsed texts, keeps the noun
    chunks that are subject or direct object and name a target entity, and
    writes one row per hit.  The scorer ([get_prediction],
    [get_anthroscore], the tail of [main]) asks a masked language model for
    the probability of a fixed pronoun list at the mask and takes a log
    ratio.

    What the script borrows from libraries is taken as data or as a
    parameter: the spaCy pipeline ([nlp]), the RoBERTa tokenizer and model,
    the CSV reader, the regular-expression engine outside the fragment
    modelled below, and the contents of uninitialised numpy memory.
    Python [str] values are modelled as [string] over ASCII characters:
    [Py.lower], [Py.is_space] and [Re.is_word] are Python's on ASCII text,
    and statements that rest on them for a text say that it is ASCII.
    A finite float is taken as the real number it stands for, with the
    three special values numpy's [log] and [-] can produce written out;
    the rounded library functions [np.log] and [scipy.special.softmax] are
    parameters, no property of real logarithms or exponentials is assumed
    of them. *)

From Stdlib Require Import String Ascii ZArith Bool Arith Lia Reals Lra List.
Import ListNotations.

Set Implicit Arguments.

(** ** Exceptions and the error monad *)

Inductive exn : Type :=
| IndexError
| KeyError
| ValueError
| RuntimeError
| AttributeError
| TypeError
| AssertionError
| SystemExit
| FileNotFoundError
| LibraryError.

Inductive result (A : Type) : Type :=
| Ok (a : A)
| Raise (e : exn).

Arguments Ok {A} a.
Arguments Raise {A} e.

Definition bind {A B : Type} (m : result A) (k : A -> result B) : result B :=
  match m with
  | Ok a => k a
  | Raise e => Raise e
  end.

Declare Scope py_scope.
Delimit Scope py_scope with py.
Notation "x <- m ;; k" := (bind m (fun x => k))
  (at level 61, m at next level, right associativity) : py_scope.

(** [assert b] *)
Definition py_assert (b : bool) : result unit :=
  if b then Ok tt else Raise AssertionError.

Fixpoint mapM {A B : Type} (f : A -> result B) (l : list A) : result (list B) :=
  match l with
  | [] => Ok []
  | a :: l' =>
      (b <- f a ;;
       bs <- mapM f l' ;;
       Ok (b :: bs))%py
  end.

(** ** Python sequence and string primitives *)

Module Py.

Section Sequences.

Variable A : Type.
Variable eqb : A -> A -> bool.

(** [l.startswith(p)] *)
Fixpoint startswith (p l : list A) : bool :=
  match p, l with
  | [], _ => true
  | _ :: _, [] => false
  | a :: p', b :: l' => eqb a b && startswith p' l'
  end.

(** [s.find(old)]: the least index at which [old] starts. *)
Fixpoint find (old s : list A) : option nat :=
  if startswith old s then Some 0
  else match s with
       | [] => None
       | _ :: s' => option_map S (find old s')
       end.

(** The scan of [s.replace(old, new)] for a non-empty [old]: left to
    right, every occurrence that does not overlap an earlier replaced one.
    [skip] counts the characters of the occurrence still to be dropped. *)
Fixpoint replace_scan (old new s : list A) (skip : nat) : list A :=
  match s with
  | [] => []
  | c :: s' =>
      match skip with
      | S k => replace_scan old new s' k
      | O =>
          if startswith old s
          then new ++ replace_scan old new s' (length old - 1)
          else c :: replace_scan old new s' 0
      end
  end.

(** [s.replace(old, new)], no count given: all occurrences.  For an empty
    [old] Python puts [new] before every character and at the end. *)
Definition replace (s old new : list A) : list A :=
  match old with
  | [] => new ++ flat_map (fun c => c :: new) s
  | _ :: _ => replace_scan old new s 0
  end.

(** A replacement of the first occurrence only; the script does not use
    it, it is what "first occurrence only" would mean. *)
Definition replace_first (s old new : list A) : list A :=
  match find old s with
  | None => s
  | Some i => firstn i s ++ new ++ skipn (i + length old) s
  end.

(** [s.lstrip(chars)], [s.rstrip(chars)], [s.strip(chars)]: [chars] is a
    set of characters, not a prefix or suffix. *)
Fixpoint lstrip (chars : A -> bool) (s : list A) : list A :=
  match s with
  | [] => []
  | c :: s' => if chars c then lstrip chars s' else s
  end.

Definition rstrip (chars : A -> bool) (s : list A) : list A :=
  rev (lstrip chars (rev s)).

Definition strip (chars : A -> bool) (s : list A) : list A :=
  rstrip chars (lstrip chars s).

(** [l[start:stop]] with Python's treatment of negative and oversized
    bounds. *)
Definition clamp_index (len i : Z) : Z :=
  let i' := if (i <? 0)%Z then (i + len)%Z else i in
  Z.max 0 (Z.min len i').

Definition slice (l : list A) (start stop : Z) : list A :=
  let len := Z.of_nat (length l) in
  let lo := clamp_index len start in
  let hi := clamp_index len stop in
  firstn (Z.to_nat (hi - lo)) (skipn (Z.to_nat lo) l).

(** [l[start:]] *)
Definition slice_from (l : list A) (start : Z) : list A :=
  slice l start (Z.of_nat (length l)).

(** [l[i]] for an integer [i]: negative indices count from the end. *)
Definition index (l : list A) (i : Z) : result A :=
  let len := Z.of_nat (length l) in
  let i' := if (i <? 0)%Z then (i + len)%Z else i in
  if ((0 <=? i') && (i' <? len))%Z
  then match nth_error l (Z.to_nat i') with
       | Some a => Ok a
       | None => Raise IndexError
       end
  else Raise IndexError.

End Sequences.

(** Strings. *)

Definition chars (s : string) : list ascii := list_ascii_of_string s.
Definition str (l : list ascii) : string := string_of_list_ascii l.

Definition mem_chars (set : string) (c : ascii) : bool :=
  existsb (Ascii.eqb c) (chars set).

Definition str_replace (s old new : string) : string :=
  str (replace Ascii.eqb (chars s) (chars old) (chars new)).


Definition str_strip (s set : string) : string :=
  str (strip (mem_chars set) (chars s)).

Definition str_rstrip (s set : string) : string :=
  str (rstrip (mem_chars set) (chars s)).

(** [c.isspace()] on ASCII. *)
Definition is_space (c : ascii) : bool :=
  let n := nat_of_ascii c in
  ((9 <=? n) && (n <=? 13)) || ((28 <=? n) && (n <=? 32)).

(** [s.strip()], for an ASCII [s]. *)
Definition str_strip_ws (s : string) : string :=
  str (strip is_space (chars s)).

(** [c.lower()] on ASCII: the capital letters A to Z. *)
Definition lower_char (c : ascii) : ascii :=
  let n := nat_of_ascii c in
  if (65 <=? n) && (n <=? 90) then ascii_of_nat (n + 32) else c.

(** [s.lower()], for an ASCII [s]. *)
Definition lower (s : string) : string :=
  str (map lower_char (chars s)).

(** [s[-4:]] *)
Definition last4 (s : string) : string :=
  str (slice_from (chars s) (-4)).

(** [s.split('.')[0]]: the text before the first dot. *)
Fixpoint before_dot (s : list ascii) : list ascii :=
  match s with
  | [] => []
  | c :: s' => if Ascii.eqb c "."%char then [] else c :: before_dot s'
  end.

Definition split_dot_0 (s : string) : string := str (before_dot (chars s)).

(** Truth value of a string: non-empty. *)
Definition truthy (s : string) : bool :=
  match s with
  | EmptyString => false
  | String _ _ => true
  end.

End Py.

(** ** Regular expressions: the fragment the extractor builds

    Every pattern the extractor hands to [re.findall] is the two characters
    backslash-b, an entity, and backslash-b again.  When the entity holds no
    regex metacharacter the pattern means: the entity as a literal, with a
    word boundary on each side.  That fragment is modelled here; any other
    pattern is left to [re_other], the engine as a parameter. *)

Module Re.

(** [\w] on ASCII: letters, digits, underscore. *)
Definition is_word (c : ascii) : bool :=
  let n := nat_of_ascii c in
  ((48 <=? n) && (n <=? 57)) || ((65 <=? n) && (n <=? 90))
  || ((97 <=? n) && (n <=? 122)) || (n =? 95).

Definition is_meta (c : ascii) : bool :=
  Py.mem_chars ".^$*+?{}[]\|()" c.

(** Is there a word character at position [i] (counted from 1 for the first
    character, so that 0 is "before the text")? *)
Definition word_at (text : list ascii) (i : nat) : bool :=
  match i with
  | O => false
  | S j => match nth_error text j with
           | Some c => is_word c
           | None => false
           end
  end.

(** [\b] at offset [i]: exactly one of the characters before and after the
    offset is a word character. *)
Definition boundary (text : list ascii) (i : nat) : bool :=
  xorb (word_at text i) (word_at text (S i)).

(** Does [\b e \b] match at offset [i] of [text]? *)
Definition match_at (e text : list ascii) (i : nat) : bool :=
  Py.startswith Ascii.eqb e (skipn i text)
  && boundary text i
  && boundary text (i + length e).

(** Is [re.findall] of [\b e \b] on [text] non-empty, for a literal [e]? *)
Definition word_search (e text : list ascii) : bool :=
  existsb (match_at e text) (seq 0 (S (length text))).

Definition backslash_b : list ascii := Py.chars "\b".

(** The entity of a pattern of the fragment. *)
Definition literal_core (pattern : list ascii) : option (list ascii) :=
  match pattern with
  | c1 :: c2 :: rest =>
      if Ascii.eqb c1 "\"%char && Ascii.eqb c2 "b"%char
      then match rev rest with
           | d2 :: d1 :: mid =>
               if Ascii.eqb d1 "\"%char && Ascii.eqb d2 "b"%char
                  && forallb (fun c => negb (is_meta c)) mid
               then Some (rev mid)
               else None
           | _ => None
           end
      else None
  | _ => None
  end.

Section Engine.

Variable re_other : string -> string -> result bool.

(** The truth value of [re.findall(pattern, text)]. *)
Definition findall_nonempty (pattern text : string) : result bool :=
  match literal_core (Py.chars pattern) with
  | Some e => Ok (word_search e (Py.chars text))
  | None => re_other pattern text
  end.

End Engine.

End Re.

(** ** The sentence extractor *)

Module Extractor.

(** What spaCy returns, as far as the script looks at it. *)
Record NounChunk : Type := {
  nc_text : string;              (* [_noun_chunk.text], also [str(_noun_chunk)] *)
  nc_root_dep_ : string;         (* [_noun_chunk.root.dep_] *)
  nc_root_dep : Z;               (* [_noun_chunk.root.dep], the label's integer id *)
  nc_root_head_lemma_ : string   (* [_noun_chunk.root.head.lemma_] *)
}.

Record Sentence : Type := {
  sent_text : string;            (* [str(_parsed_sentence)] *)
  sent_noun_chunks : list NounChunk
}.

Definition Doc : Type := list Sentence.   (* [doc.sents] *)

(** A pandas cell: missing, a string, or something that is not a string. *)
Inductive cell : Type :=
| NaN
| Str (s : string)
| Num (z : Z).

Record DataFrame : Type := {
  df_columns : list string;
  df_rows : list (list cell)
}.

(** One output row; the fields are [column_names] in order. *)
Record SentenceMatch : Type := {
  sentence : string;
  masked_sentence : string;
  text_id : cell;
  POS : Z;
  verb : string;
  original_term : string;
  original_noun : string
}.

Fixpoint column_index (name : string) (cols : list string) : option nat :=
  match cols with
  | [] => None
  | c :: cols' =>
      if String.eqb c name then Some 0 else option_map S (column_index name cols')
  end.

(** [k[name]] for a row [k] of a frame with columns [cols]. *)
Definition row_get (cols : list string) (k : list cell) (name : string) : result cell :=
  match column_index name cols with
  | None => Raise KeyError
  | Some i => match nth_error k i with
              | Some c => Ok c
              | None => Raise KeyError
              end
  end.

Definition is_nan (c : cell) : bool :=
  match c with
  | NaN => true
  | _ => false
  end.

(** [df.dropna(subset=name)] *)
Definition dropna (df : DataFrame) (name : string) : result DataFrame :=
  match column_index name (df_columns df) with
  | None => Raise KeyError
  | Some i =>
      Ok {| df_columns := df_columns df;
            df_rows := filter (fun k => negb (is_nan (nth i k NaN))) (df_rows df) |}
  end.

(** Lines 91 to 94: the identifier recorded with the rows of [k]. *)
Definition text_id_of (input_filename : string) (cols : list string)
    (id_column_name : string) (k : list cell) : result cell :=
  if 0 <? String.length id_column_name
  then row_get cols k id_column_name
  else Ok (Str input_filename).

(** [pattern_list]: a word boundary on each side of every entity. *)
Definition pattern_of (s : string) : string := ("\b" ++ s ++ "\b")%string.

Definition pattern_list (entities : list string) : list string :=
  map pattern_of entities.

(** The tuple appended to [final] (line 104 of the script). *)
Definition make_row (sent : Sentence) (chunk : NounChunk) (tid : cell)
    (pattern : string) : SentenceMatch :=
  let _verb := Py.lower (nc_root_head_lemma_ chunk) in
  let target := Py.str_replace (sent_text sent) (nc_text chunk) "<mask>" in
  {| sentence := sent_text sent;
     masked_sentence := target;
     text_id := tid;
     POS := nc_root_dep chunk;
     verb := _verb;
     original_term := Py.str_strip pattern "\b";
     original_noun := Py.lower (nc_text chunk) |}.

Section Run.

Variable read_csv : string -> result DataFrame.
Variable nlp : string -> result Doc.
Variable re_other : string -> string -> result bool.

(** The loop over [pattern_list] for one noun chunk. *)
Fixpoint scan_patterns (sent : Sentence) (chunk : NounChunk) (tid : cell)
    (patterns : list string) : result (list SentenceMatch) :=
  match patterns with
  | [] => Ok []
  | _pattern :: rest =>
      (hit <- Re.findall_nonempty re_other _pattern (Py.lower (nc_text chunk)) ;;
       more <- scan_patterns sent chunk tid rest ;;
       Ok (if hit then make_row sent chunk tid _pattern :: more else more))%py
  end.

Definition is_subject_or_object (chunk : NounChunk) : bool :=
  String.eqb (nc_root_dep_ chunk) "nsubj" || String.eqb (nc_root_dep_ chunk) "dobj".

(** The body of the loop over the noun chunks of a sentence. *)
Definition scan_chunk (sent : Sentence) (tid : cell) (patterns : list string)
    (chunk : NounChunk) : result (list SentenceMatch) :=
  if is_subject_or_object chunk
  then scan_patterns sent chunk tid patterns
  else Ok [].

Definition scan_sentence (tid : cell) (patterns : list string)
    (sent : Sentence) : result (list SentenceMatch) :=
  (rows <- mapM (scan_chunk sent tid patterns) (sent_noun_chunks sent) ;;
   Ok (concat rows))%py.

Definition scan_doc (tid : cell) (patterns : list string) (doc : Doc)
    : result (list SentenceMatch) :=
  (rows <- mapM (scan_sentence tid patterns) doc ;;
   Ok (concat rows))%py.

(** The body of the loop over the rows of the input frame. *)
Definition scan_row (input_filename : string) (patterns : list string)
    (cols : list string) (text_column_name id_column_name : string)
    (k : list cell) : result (list SentenceMatch) :=
  (text <- row_get cols k text_column_name ;;
   tid <- text_id_of input_filename cols id_column_name k ;;
   match text with
   | Str t =>
       if Py.truthy (Py.str_strip_ws t)
       then (doc <- nlp t ;; scan_doc tid patterns doc)
       else Ok []
   | _ => Raise AttributeError
   end)%py.

(** [parse_sentences_from_file]; the result is the table written to
    [output_filename].  Setting seven column names on the frame built from
    an empty [final] is a [ValueError]. *)
Definition parse_sentences_from_file (input_filename : string)
    (entities : list string) (text_column_name id_column_name : string)
    : result (list SentenceMatch) :=
  let patterns := pattern_list entities in
  (raw <- read_csv input_filename ;;
   df <- dropna raw text_column_name ;;
   rows <- mapM (scan_row input_filename patterns (df_columns df)
                   text_column_name id_column_name) (df_rows df) ;;
   let final := concat rows in
   match final with
   | [] => Raise ValueError
   | _ :: _ => Ok final
   end)%py.

End Run.

End Extractor.

(** ** numpy values *)

Module Np.

Local Open Scope R_scope.

(** A float as the script can see it: a real number, or one of the special
    values that [np.log] and [-] produce. *)
Inductive float : Type :=
| Fin (r : R)
| PInf
| NInf
| NotANumber.

(** [np.log(x)]: minus infinity at zero, not-a-number below, and for a
    positive [x] the finite float [flog x] that numpy's rounded logarithm
    returns. *)
Definition log (flog : R -> R) (x : R) : float :=
  if Rlt_dec 0 x then Fin (flog x)
  else if Rlt_dec x 0 then NotANumber
  else NInf.

(** [a - b] on floats. *)
Definition sub (a b : float) : float :=
  match a, b with
  | NotANumber, _ | _, NotANumber => NotANumber
  | Fin x, Fin y => Fin (x - y)
  | Fin _, PInf => NInf
  | Fin _, NInf => PInf
  | PInf, PInf => NotANumber
  | PInf, _ => PInf
  | NInf, NInf => NotANumber
  | NInf, _ => NInf
  end.




(** [np.sum] of a vector. *)
Definition sum (v : list R) : R := fold_right Rplus 0 v.

(** An array of one or two dimensions. *)
Inductive ndarray : Type :=
| Arr1 (v : list R)
| Arr2 (rows : list (list R)).

Definition atleast_2d (a : ndarray) : list (list R) :=
  match a with
  | Arr1 v => [v]
  | Arr2 rows => rows
  end.

(** [np.vstack([final, newrow])] for a vector [newrow]: the widths must
    agree. *)
Definition vstack (final : ndarray) (newrow : list R) : result ndarray :=
  let rows := atleast_2d final in
  if forallb (fun r => Nat.eqb (length r) (length newrow)) rows
  then Ok (Arr2 (rows ++ [newrow]))
  else Raise ValueError.

End Np.

(** ** The scorer *)

Module Scorer.

(** The pronoun list of [get_prediction] and [get_anthroscore]
    (lines 41 and 71 of the script), in the order written there. *)
Definition terms : list string :=
  ["you"; "we"; "us"; "he"; "she"; "her"; "him";
   "You"; "We"; "Us"; "He"; "She"; "Her"; "I"; "i";
   "it"; "its"; "It"; "Its"]%string.

(** The RoBERTa tokenizer, as far as the script uses it.  [encode] is the
    sequence of ids of [tokenizer.encode(sent, return_tensors='pt')],
    begin and end markers included. *)
Record Tokenizer : Type := {
  encode : string -> list Z;
  get_vocab : string -> option Z;
  mask_token_id : Z
}.

(** [(ids == mask_token_id).nonzero()]: the positions holding the mask,
    ascending, counted from [i]. *)
Fixpoint mask_positions (mask : Z) (i : Z) (ids : list Z) : list Z :=
  match ids with
  | [] => []
  | x :: ids' =>
      if (x =? mask)%Z
      then i :: mask_positions mask (i + 1) ids'
      else mask_positions mask (i + 1) ids'
  end.

(** [torch.reshape(t, (1, 512))]: the tensor must hold exactly 512 items. *)
Definition reshape_1_512 (t : list Z) : result (list Z) :=
  if Nat.eqb (length t) 512 then Ok t else Raise RuntimeError.

(** Lines 51 to 54: the window around the mask at [p0]. *)
Definition recenter (temp : list Z) (p0 : Z) : result (list Z) :=
  if (p0 + 256 >? Z.of_nat (length temp))%Z
  then reshape_1_512 (Py.slice_from temp (-512))
  else reshape_1_512 (Py.slice temp (p0 - 256) (p0 + 256)).

Section Run.

Variable tokenizer : Tokenizer.

(** The language model: the logits for every position of the input, one
    vector over the vocabulary each ([output[0].squeeze()]). *)
Variable model : list Z -> result (list (list R)).

(** [scipy.special.softmax], as it computes on floats. *)
Variable softmax : list R -> list R.

(** [uninit a j]: what happens to be in cell [j] of the [a]-th array
    obtained from [np.empty]. *)
Variable uninit : nat -> nat -> R.

Definition np_empty (alloc n : nat) : list R :=
  map (uninit alloc) (seq 0 n).

Definition lookup_vocab (x : string) : result Z :=
  match get_vocab tokenizer x with
  | Some i => Ok i
  | None => Raise KeyError
  end.

(** Lines 43 to 58: the token sequence to feed the model and the position
    of the mask in it; [None] stands for the early return of line 56. *)
Definition locate_mask (sent : string) : result (option (list Z * Z)) :=
  let token_ids := encode tokenizer sent in
  let masked_position := mask_positions (mask_token_id tokenizer) 0 token_ids in
  match masked_position with
  | masked_pos :: _ => Ok (Some (token_ids, masked_pos))
  | [] =>
      (* except IndexError *)
      let temp := encode tokenizer sent in
      let masked_position := mask_positions (mask_token_id tokenizer) 0 temp in
      match masked_position with
      | [] => Ok None                      (* inner except IndexError *)
      | p0 :: _ =>
          (token_ids <- recenter temp p0 ;;
           match mask_positions (mask_token_id tokenizer) 0 token_ids with
           | masked_pos :: _ => Ok (Some (token_ids, masked_pos))
           | [] => Raise IndexError
           end)%py
      end
  end.

(** [get_prediction]; [alloc] numbers the [np.empty] call it may make. *)
Definition get_prediction (alloc : nat) (sent : string) : result (list R) :=
  (target_inds <- mapM lookup_vocab terms ;;
   located <- locate_mask sent ;;
   match located with
   | None => Ok (np_empty alloc (length terms))
   | Some (token_ids, masked_pos) =>
       last_hidden_state <- model token_ids ;;
       mask_hidden_state <- Py.index last_hidden_state masked_pos ;;
       let probs := softmax mask_hidden_state in
       mapM (Py.index probs) target_inds
   end)%py.

(** The loop of [get_anthroscore]: sentence number [i] onwards. *)
Fixpoint score_rows (i : nat) (final : Np.ndarray) (sents : list string)
    : result Np.ndarray :=
  match sents with
  | [] => Ok final
  | x :: rest =>
      (newrow <- get_prediction (S i) x ;;
       final' <- Np.vstack final newrow ;;
       score_rows (S i) final' rest)%py
  end.

(** [get_anthroscore], on the [masked_sentence] column of the file. *)
Definition get_anthroscore (masked_sentences : list string) : result Np.ndarray :=
  score_rows 0 (Np.Arr1 (np_empty 0 (length terms))) masked_sentences.

End Run.

(** [np.sum(bertscores[1:, :15], axis=1)] *)
Definition human_scores (bertscores : Np.ndarray) : result (list R) :=
  match bertscores with
  | Np.Arr1 _ => Raise IndexError
  | Np.Arr2 rows => Ok (map (fun r => Np.sum (firstn 15 r)) (skipn 1 rows))
  end.

(** [np.sum(bertscores[1:, 15:], axis=1)] *)
Definition nonhuman_scores (bertscores : Np.ndarray) : result (list R) :=
  match bertscores with
  | Np.Arr1 _ => Raise IndexError
  | Np.Arr2 rows => Ok (map (fun r => Np.sum (skipn 15 r)) (skipn 1 rows))
  end.

Section Scores.

(** The finite values of [np.log] on positive floats. *)
Variable np_log : R -> R.

(** One entry of [np.log(human_scores) - np.log(nonhuman_scores)]. *)
Definition anthroscore (h n : R) : Np.float :=
  Np.sub (Np.log np_log h) (Np.log np_log n).

(** The score of one row of the stacked matrix. *)
Definition row_score (r : list R) : Np.float :=
  anthroscore (Np.sum (firstn 15 r)) (Np.sum (skipn 15 r)).

(** The column assigned to [df['anthroscore']] (lines 146 to 148). *)
Definition anthroscore_column (bertscores : Np.ndarray) : result (list Np.float) :=
  (hs <- human_scores bertscores ;;
   ns <- nonhuman_scores bertscores ;;
   Ok (map (fun hn => anthroscore (fst hn) (snd hn)) (combine hs ns)))%py.

End Scores.

End Scorer.

(** ** The command line and [main] *)

Module Main.

Import Extractor.

(** What the user typed: [None] where an option was left out.  The model
    covers invocations that give [--text_column_name]. *)
Record CommandLine : Type := {
  cl_input_file : option string;
  cl_text_column_name : string;
  cl_entities : option (list string);
  cl_entity_filename : option string;
  cl_output_file : option string;
  cl_text_id_name : option string
}.

(** The namespace returned by [parser.parse_args()]. *)
Record Args : Type := {
  input_file : option string;          (* no default: may be [None] *)
  text_column_name : string;
  entities : option (list string);     (* no default: may be [None] *)
  entity_filename : string;            (* default [''] *)
  output_file : option string;         (* default [''] *)
  text_id_name : string                (* default [''] *)
}.

Definition with_default (d : string) (given : option string) : string :=
  match given with
  | Some v => v
  | None => d
  end.

(** Do the two entity options conflict?  [--entities] and
    [--entity_filename] exclude each other, but argparse only counts an
    option as given when its value is not the option's default: the empty
    string after [--entity_filename] passes for "not given". *)
Definition entity_options_conflict (cl : CommandLine) : bool :=
  match cl_entities cl, cl_entity_filename cl with
  | Some _, Some f => negb (String.eqb f "")
  | _, _ => false
  end.

(** [--entities] takes one value or more ([nargs="+"]). *)
Definition entities_lack_values (cl : CommandLine) : bool :=
  match cl_entities cl with
  | Some [] => true
  | _ => false
  end.

Definition parse_args (cl : CommandLine) : result Args :=
  if entity_options_conflict cl || entities_lack_values cl
  then Raise SystemExit
  else
    Ok {| input_file := cl_input_file cl;
          text_column_name := cl_text_column_name cl;
          entities := cl_entities cl;
          entity_filename := with_default "" (cl_entity_filename cl);
          output_file := Some (with_default "" (cl_output_file cl));
          text_id_name := with_default "" (cl_text_id_name cl) |}.

(** Lines 124 to 129: the two paths, checked. *)
Definition main_paths (args : Args) : result (string * string) :=
  (out <- match output_file args with
          | None =>
              match input_file args with
              | Some i => Ok (Py.split_dot_0 i ++ "_parsed.csv")%string
              | None => Raise AttributeError
              end
          | Some o => Ok o
          end ;;
   inp <- match input_file args with
          | Some i => Ok i
          | None => Raise TypeError
          end ;;
   _ <- py_assert (String.eqb (Py.last4 inp) ".csv") ;;
   _ <- py_assert (String.eqb (Py.last4 out) ".csv") ;;
   Ok (inp, out))%py.

Section Run.

Variable read_csv : string -> result DataFrame.
(** [open(name)] and [for line in f]: the lines of the file as text mode
    gives them, every line ending already turned into a newline. *)
Variable read_lines : string -> result (list string).
Variable nlp : string -> result Doc.
Variable re_other : string -> string -> result bool.
Variable tokenizer : Scorer.Tokenizer.
Variable model : list Z -> result (list (list R)).
Variable softmax : list R -> list R.
Variable uninit : nat -> nat -> R.
Variable np_log : R -> R.

(** The table as read back from the file it was written to. *)
Variable reload : string -> list SentenceMatch -> result (list SentenceMatch).

(** Lines 132 to 136. *)
Definition main_entities (args : Args) : result (option (list string)) :=
  if 0 <? String.length (entity_filename args)
  then (lines <- read_lines (entity_filename args) ;;
        Ok (Some (map (fun line => Py.str_rstrip line (String "010" "")) lines)))%py
  else Ok (entities args).

(** Lines 142 to 150, on the table read back from [output_file]: the rows
    with their [anthroscore]. *)
Definition main_scores (df : list SentenceMatch)
    : result (list (SentenceMatch * Np.float)) :=
  (bertscores <- Scorer.get_anthroscore tokenizer model softmax uninit
                   (map masked_sentence df) ;;
   column <- Scorer.anthroscore_column np_log bertscores ;;
   if Nat.eqb (length column) (length df)
   then Ok (combine df column)
   else Raise ValueError)%py.

(** [main]: the rows written at the end, or the exception that ends the
    run.  Console output is left out. *)
Definition main (cl : CommandLine) : result (list (SentenceMatch * Np.float)) :=
  (args <- parse_args cl ;;
   paths <- main_paths args ;;
   ents <- main_entities args ;;
   table <- match ents with
            | Some es =>
                parse_sentences_from_file read_csv nlp re_other (fst paths) es
                  (text_column_name args) (text_id_name args)
            | None => Raise TypeError
            end ;;
   df <- reload (snd paths) table ;;
   main_scores df)%py.

End Run.

End Main.

(** ** The sentence extractor as a command

    [Extractor.parse_sentences_from_file] gives the table as a function of
    what the libraries answer.  Here the same function is written as the
    command it is: it reads the input file from the file system, calls the
    parser once for every non-blank text, in the order of the rows, and
    writes the table to the output file.  The parser is an object with a
    state of its own (its caches and its vocabulary grow with every call),
    and the file system keeps what earlier runs wrote; both are threaded
    through the run, so that two runs can be told apart. *)

Module ExtractorIO.

Import Extractor.

(** A file is a CSV file as found, or what [res.to_csv] wrote. *)
Inductive file : Type :=
| Csv (df : DataFrame)
| Written (table : list SentenceMatch).

Section Run.

(** The state of the [nlp] object. *)
Variable St : Type.

Record World : Type := {
  files : string -> option file;
  parser : St
}.

(** [nlp(text)]: the answer, and the state the parser is left in. *)
Variable nlp : St -> string -> result Doc * St.
Variable re_other : string -> string -> result bool.

(** What [pd.read_csv] makes of a file that [to_csv] wrote. *)
Variable reparse : list SentenceMatch -> result DataFrame.

Definition read_csv (w : World) (name : string) : result DataFrame :=
  match files w name with
  | None => Raise FileNotFoundError
  | Some (Csv df) => Ok df
  | Some (Written table) => reparse table
  end.

(** [res.to_csv(output_filename, index=False)]; the write itself is taken
    to succeed. *)
Definition to_csv (w : World) (s : St) (name : string)
    (table : list SentenceMatch) : World :=
  {| files := fun n => if String.eqb n name then Some (Written table)
                       else files w n;
     parser := s |}.

(** The body of the loop over the rows of the input frame. *)
Definition scan_row (input_filename : string) (patterns : list string)
    (cols : list string) (text_column_name id_column_name : string)
    (k : list cell) (s : St) : result (list SentenceMatch) * St :=
  match row_get cols k text_column_name with
  | Raise e => (Raise e, s)
  | Ok text =>
      match text_id_of input_filename cols id_column_name k with
      | Raise e => (Raise e, s)
      | Ok tid =>
          match text with
          | Str t =>
              if Py.truthy (Py.str_strip_ws t)
              then let (doc, s') := nlp s t in
                   (bind doc (scan_doc re_other tid patterns), s')
              else (Ok [], s)
          | _ => (Raise AttributeError, s)
          end
      end
  end.

(** The loop over [df.iterrows()]: the rows in order, the parser's state
    handed from one row to the next, the first exception ends the loop. *)
Fixpoint scan_rows (input_filename : string) (patterns : list string)
    (cols : list string) (text_column_name id_column_name : string)
    (rows : list (list cell)) (s : St)
    : result (list (list SentenceMatch)) * St :=
  match rows with
  | [] => (Ok [], s)
  | k :: rest =>
      match scan_row input_filename patterns cols text_column_name
              id_column_name k s with
      | (Raise e, s') => (Raise e, s')
      | (Ok r, s') =>
          match scan_rows input_filename patterns cols text_column_name
                  id_column_name rest s' with
          | (Raise e, s'') => (Raise e, s'')
          | (Ok rs, s'') => (Ok (r :: rs), s'')
          end
      end
  end.

(** [parse_sentences_from_file]: the table (or the exception), and the
    world after the run.  Nothing is written when the run ends in an
    exception. *)
Definition parse_sentences_from_file (w : World) (input_filename : string)
    (entities : list string) (text_column_name id_column_name : string)
    (output_filename : string) : result (list SentenceMatch) * World :=
  let patterns := pattern_list entities in
  match read_csv w input_filename with
  | Raise e => (Raise e, w)
  | Ok raw =>
      match dropna raw text_column_name with
      | Raise e => (Raise e, w)
      | Ok df =>
          match scan_rows input_filename patterns (df_columns df)
                  text_column_name id_column_name (df_rows df) (parser w) with
          | (Raise e, s) => (Raise e, {| files := files w; parser := s |})
          | (Ok rows, s) =>
              match concat rows with
              | [] => (Raise ValueError, {| files := files w; parser := s |})
              | row :: more =>
                  (Ok (row :: more), to_csv w s output_filename (row :: more))
              end
          end
      end
  end.

End Run.

End ExtractorIO.

(** ** Vocabulary for the statements *)

Module ExtractorSpec.

Import Extractor.

Section Vocabulary.

Variable read_csv : string -> result DataFrame.
Variable nlp : string -> result Doc.
Variable re_other : string -> string -> result bool.

(** [re.findall(pattern, text)] returned a non-empty list. *)
Definition hit (text pattern : string) : bool :=
  match Re.findall_nonempty re_other pattern text with
  | Ok true => true
  | _ => false
  end.

(** The rows a noun chunk contributes: one per matching pattern, in the
    order of the entity list. *)
Definition chunk_rows (entities : list string) (sent : Sentence) (tid : cell)
    (chunk : NounChunk) : list SentenceMatch :=
  if is_subject_or_object chunk
  then map (make_row sent chunk tid)
         (filter (hit (Py.lower (nc_text chunk))) (pattern_list entities))
  else [].

(** [chunk] is a noun chunk of sentence [sent] of the parse of a non-blank
    text of the input file, and [tid] is the identifier of that text. *)
Inductive parsed_chunk (input_filename text_column_name id_column_name : string)
    : cell -> Sentence -> NounChunk -> Prop :=
| parsed_chunk_intro raw df k t tid doc sent chunk :
    read_csv input_filename = Ok raw ->
    dropna raw text_column_name = Ok df ->
    In k (df_rows df) ->
    row_get (df_columns df) k text_column_name = Ok (Str t) ->
    text_id_of input_filename (df_columns df) id_column_name k = Ok tid ->
    Py.truthy (Py.str_strip_ws t) = true ->
    nlp t = Ok doc ->
    In sent doc ->
    In chunk (sent_noun_chunks sent) ->
    parsed_chunk input_filename text_column_name id_column_name tid sent chunk.

End Vocabulary.

(** Every occurrence of [e] in [text] touches a word character on its left
    or on its right: [e] is only ever part of a longer word. *)
Definition only_inside_words (e text : list ascii) : Prop :=
  forall i, Py.startswith Ascii.eqb e (skipn i text) = true ->
            Re.word_at text i = true \/ Re.word_at text (S (i + length e)) = true.

(** [e] occurs in [text] with no word character next to it on either side:
    as a whole word. *)
Definition whole_word_in (e text : list ascii) : Prop :=
  exists i, Py.startswith Ascii.eqb e (skipn i text) = true
            /\ Re.word_at text i = false
            /\ Re.word_at text (S (i + length e)) = false.

(** Every character of [s] is an ASCII character.  [Py.lower],
    [Py.is_space] and [Re.is_word] follow Python on such characters only:
    Python lowercases, and counts as letters or as spaces, characters
    beyond ASCII too. *)
Definition is_ascii (s : list ascii) : Prop :=
  forallb (fun c => nat_of_ascii c <? 128) s = true.

(** [e] holds no regex metacharacter. *)
Definition literal (e : list ascii) : Prop :=
  forallb (fun c => negb (Re.is_meta c)) e = true.

(** The first and the last character of [e] are word characters. *)
Definition word_ended (e : list ascii) : Prop :=
  exists c, hd_error e = Some c /\ Re.is_word c = true
  /\ exists d, hd_error (rev e) = Some d /\ Re.is_word d = true.

End ExtractorSpec.

Module ScorerSpec.

Section Vocabulary.

Variable tokenizer : Scorer.Tokenizer.
Variable model : list Z -> result (list (list R)).
Variable softmax : list R -> list R.
Variable uninit : nat -> nat -> R.

(** The predictions for sentences number [i], [i+1], ... in turn. *)
Fixpoint predict_from (i : nat) (sents : list string) : result (list (list R)) :=
  match sents with
  | [] => Ok []
  | x :: rest =>
      (v <- Scorer.get_prediction tokenizer model softmax uninit (S i) x ;;
       vs <- predict_from (S i) rest ;;
       Ok (v :: vs))%py
  end.

(** The sentence has no mask token. *)
Definition unresolvable (sent : string) : Prop :=
  Scorer.mask_positions (Scorer.mask_token_id tokenizer) 0
    (Scorer.encode tokenizer sent) = [].

End Vocabulary.

End ScorerSpec.

(** ** Sample inputs *)

Module Samples.

Import Extractor.

Local Open Scope string_scope.

Definition bot_chunk : NounChunk :=
  {| nc_text := "The bot"; nc_root_dep_ := "nsubj"; nc_root_dep := 429;
     nc_root_head_lemma_ := "help" |}.

Definition researchers_chunk : NounChunk :=
  {| nc_text := "researchers"; nc_root_dep_ := "dobj"; nc_root_dep := 416;
     nc_root_head_lemma_ := "help" |}.

Definition bot_sentence : Sentence :=
  {| sent_text := "The bot helps researchers.";
     sent_noun_chunks := [bot_chunk; researchers_chunk] |}.

Definition model_subject : NounChunk :=
  {| nc_text := "the model"; nc_root_dep_ := "nsubj"; nc_root_dep := 429;
     nc_root_head_lemma_ := "beat" |}.

Definition model_object : NounChunk :=
  {| nc_text := "the model"; nc_root_dep_ := "dobj"; nc_root_dep := 416;
     nc_root_head_lemma_ := "beat" |}.

Definition we_chunk : NounChunk :=
  {| nc_text := "We"; nc_root_dep_ := "nsubj"; nc_root_dep := 429;
     nc_root_head_lemma_ := "think" |}.

Definition model_sentence : Sentence :=
  {| sent_text := "We think the model beats the model.";
     sent_noun_chunks := [we_chunk; model_subject; model_object] |}.

(** A chunk that names two entities at once. *)
Definition both_chunk : NounChunk :=
  {| nc_text := "The model system"; nc_root_dep_ := "nsubj"; nc_root_dep := 429;
     nc_root_head_lemma_ := "run" |}.

Definition both_sentence : Sentence :=
  {| sent_text := "The model system runs.";
     sent_noun_chunks := [both_chunk] |}.

(** Chunks for entities that begin with a character that is not a word
    character. *)
Definition dash_bot_chunk : NounChunk :=
  {| nc_text := "the -bot"; nc_root_dep_ := "nsubj"; nc_root_dep := 429;
     nc_root_head_lemma_ := "run" |}.

Definition dash_bot_sentence : Sentence :=
  {| sent_text := "the -bot runs.";
     sent_noun_chunks := [dash_bot_chunk] |}.

Definition hyphen_chunk : NounChunk :=
  {| nc_text := "x-y"; nc_root_dep_ := "dobj"; nc_root_dep := 416;
     nc_root_head_lemma_ := "plot" |}.

Definition hyphen_sentence : Sentence :=
  {| sent_text := "We plot x-y.";
     sent_noun_chunks := [we_chunk; hyphen_chunk] |}.

Definition bot_text : string := "The bot helps researchers.".
Definition model_text : string := "We think the model beats the model.".

Definition frame : DataFrame :=
  {| df_columns := ["acl_id"; "abstract"];
     df_rows := [[Str "P1"; Str bot_text];
                 [Str "P2"; NaN];
                 [Str "P3"; Str model_text]] |}.

Definition read_csv (name : string) : result DataFrame :=
  if String.eqb name "in.csv" then Ok frame else Raise LibraryError.

Definition nlp (text : string) : result Doc :=
  if String.eqb text bot_text then Ok [bot_sentence]
  else if String.eqb text model_text then Ok [model_sentence]
  else Ok [].

(** The rows for the entity list [["model"]], no identifier column. *)
Definition model_rows : list SentenceMatch :=
  [make_row model_sentence model_subject (Str "in.csv") (pattern_of "model");
   make_row model_sentence model_object (Str "in.csv") (pattern_of "model")].

(** The row for the entity list [["bot"]], identifier column [acl_id]. *)
Definition bot_row : SentenceMatch :=
  make_row bot_sentence bot_chunk (Str "P1") (pattern_of "bot").

(** No pattern of the samples leaves the literal fragment. *)
Definition re_other (pattern text : string) : result bool :=
  Raise LibraryError.

(** The invocation of the script's docstring, without [--output_file]. *)
Definition no_output : Main.CommandLine :=
  {| Main.cl_input_file := Some "example/acl_50.csv";
     Main.cl_text_column_name := "abstract";
     Main.cl_entities := Some ["system"; "model"];
     Main.cl_entity_filename := None;
     Main.cl_output_file := None;
     Main.cl_text_id_name := Some "acl_id" |}.

End Samples.

Module ScorerSamples.

Import Scorer.

Local Open Scope string_scope.

Fixpoint position_of (x : string) (l : list string) (i : Z) : option Z :=
  match l with
  | [] => None
  | y :: l' => if String.eqb x y then Some i else position_of x l' (i + 1)
  end.

(** A token sequence longer than the 512 positions of the model, with the
    mask at position 550: begin marker, 549 word tokens, the mask, 49 word
    tokens, end marker. *)
Definition long_ids : list Z :=
  (0 :: repeat 100 549 ++ 50264 :: repeat 100 49 ++ [2])%Z.

(** A sequence of 1000 tokens with the mask at position 100. *)
Definition early_ids : list Z :=
  (0 :: repeat 100 99 ++ 50264 :: repeat 100 898 ++ [2])%Z.

Definition long_sentence : string := "a long sentence with <mask> near its end".
Definition masked : string := "<mask> helps researchers.".
Definition unmasked : string := "The bot helps researchers.".

(** A tokenizer with a vocabulary of nineteen pronouns; the mask token has
    the id it has in RoBERTa. *)
Definition tokenizer : Tokenizer :=
  {| encode := fun s =>
       if String.eqb s long_sentence then long_ids
       else if String.eqb s masked then [0; 50264; 7; 8; 2]%Z
       else [0; 5; 6; 7; 8; 2]%Z;
     get_vocab := fun x => position_of x terms 0;
     mask_token_id := 50264 |}.

(** A model that finds every token equally likely. *)
Definition model (ids : list Z) : result (list (list R)) :=
  Ok (map (fun _ => repeat 0%R 19) ids).

(** Stand-ins for the two library functions: the softmax and the
    logarithm in exact arithmetic, which scipy and numpy approximate. *)
Definition softmax (v : list R) : list R :=
  let total := Np.sum (map exp v) in
  map (fun x => exp x / total)%R v.

Definition np_log : R -> R := ln.

Definition uninit (alloc j : nat) : R := 0%R.

End ScorerSamples.

(** ** Further vocabulary and sample inputs *)

Module MoreSpec.

(** An ASCII capital letter. *)
Definition is_upper (c : ascii) : bool :=
  let n := nat_of_ascii c in
  (65 <=? n) && (n <=? 90).


(** The newline character, and the set holding only it. *)
Definition newline : string := String "010" "".

(** The characters [str.strip] removes from the patterns. *)
Definition boundary_chars : ascii -> bool := Py.mem_chars "\b".

End MoreSpec.

Module MoreSamples.

Import Extractor.

Local Open Scope string_scope.

(** The sample frame cut in two, and a frame whose identifier column the
    command line misnames. *)
Definition frame_head : DataFrame :=
  {| df_columns := ["acl_id"; "abstract"];
     df_rows := [[Str "P1"; Str Samples.bot_text]; [Str "P2"; NaN]] |}.

Definition frame_tail : DataFrame :=
  {| df_columns := ["acl_id"; "abstract"];
     df_rows := [[Str "P3"; Str Samples.model_text]] |}.

Definition frame_no_nan : DataFrame :=
  {| df_columns := ["acl_id"; "abstract"];
     df_rows := [[Str "P1"; Str Samples.bot_text];
                 [Str "P3"; Str Samples.model_text]] |}.

Definition read_head (name : string) : result DataFrame := Ok frame_head.
Definition read_tail (name : string) : result DataFrame := Ok frame_tail.
Definition read_no_nan (name : string) : result DataFrame := Ok frame_no_nan.

(** The sample frame with a blank text and a numeric text added. *)
Definition frame_blank : DataFrame :=
  {| df_columns := ["acl_id"; "abstract"];
     df_rows := [[Str "P1"; Str Samples.bot_text];
                 [Str "P0"; Str "   "];
                 [Str "P3"; Str Samples.model_text]] |}.

Definition frame_numeric : DataFrame :=
  {| df_columns := ["acl_id"; "abstract"];
     df_rows := [[Str "P9"; Num 2021];
                 [Str "P1"; Str Samples.bot_text]] |}.

Definition read_blank (name : string) : result DataFrame := Ok frame_blank.
Definition read_numeric (name : string) : result DataFrame := Ok frame_numeric.



(** A tokenizer that does not know the pronoun "Its". *)
Definition small_tokenizer : Scorer.Tokenizer :=
  {| Scorer.encode := Scorer.encode ScorerSamples.tokenizer;
     Scorer.get_vocab := fun x =>
       if String.eqb x "Its" then None
       else Scorer.get_vocab ScorerSamples.tokenizer x;
     Scorer.mask_token_id := 50264 |}.

(** A model that fails on every input. *)
Definition failing_model (ids : list Z) : result (list (list R)) :=
  Raise LibraryError.

(** The docstring's invocation with neither entity option. *)
Definition no_entities : Main.CommandLine :=
  {| Main.cl_input_file := Some "example/acl_50.csv";
     Main.cl_text_column_name := "abstract";
     Main.cl_entities := None;
     Main.cl_entity_filename := None;
     Main.cl_output_file := Some "example/results.csv";
     Main.cl_text_id_name := Some "acl_id" |}.

(** A complete invocation on the sample file. *)
Definition bot_run : Main.CommandLine :=
  {| Main.cl_input_file := Some "in.csv";
     Main.cl_text_column_name := "abstract";
     Main.cl_entities := Some ["bot"];
     Main.cl_entity_filename := None;
     Main.cl_output_file := Some "out.csv";
     Main.cl_text_id_name := Some "acl_id" |}.

(** A file system that returns tables as they were written. *)
Definition reload (name : string) (table : list SentenceMatch)
    : result (list SentenceMatch) := Ok table.

Definition no_lines (name : string) : result (list string) :=
  Raise LibraryError.

End MoreSamples.

(** ** Sample worlds *)

Module IOSamples.

Import Extractor.

Local Open Scope string_scope.

(** A parser that counts its calls and answers as [Samples.nlp]. *)
Definition counting_nlp (s : nat) (text : string) : result Doc * nat :=
  (Samples.nlp text, S s).

(** A parser whose answers depend on its state: it parses until it has been
    called twice, and finds no sentence afterwards. *)
Definition tiring_nlp (s : nat) (text : string) : result Doc * nat :=
  (if Nat.ltb s 2 then Samples.nlp text else Ok [], S s).

(** The written table read back: the seven columns, every field a string
    but the dependency label. *)
Definition reparse (table : list SentenceMatch) : result DataFrame :=
  Ok {| df_columns := ["sentence"; "masked_sentence"; "text_id"; "POS"; "verb";
                       "original_term"; "original_noun"];
        df_rows := map (fun r => [Str (sentence r); Str (masked_sentence r);
                                  text_id r; Num (POS r); Str (verb r);
                                  Str (original_term r); Str (original_noun r)])
                     table |}.

(** A fresh parser and the input file only. *)
Definition fresh : ExtractorIO.World nat :=
  {| ExtractorIO.files := fun n => if String.eqb n "in.csv"
                                   then Some (ExtractorIO.Csv Samples.frame)
                                   else None;
     ExtractorIO.parser := 0 |}.


End IOSamples.
(** * Properties *)

Unset Implicit Arguments.

(** ** The error monad *)

Lemma bind_Ok_inv (A B : Type) (m : result A) (k : A -> result B) (b : B) :
  bind m k = Ok b -> exists a, m = Ok a /\ k a = Ok b.
Proof.
  destruct m as [a | e]; simpl; intros H.
  - exists a. split; [reflexivity | exact H].
  - discriminate H.
Qed.

Ltac bind_inv H :=
  let a := fresh "a" in
  let Ha := fresh "Hm" in
  apply bind_Ok_inv in H; destruct H as [a [Ha H]].

Ltac bind_inv_as H a Ha :=
  apply bind_Ok_inv in H; destruct H as [a [Ha H]].

Lemma mapM_Ok_length (A B : Type) (f : A -> result B) (l : list A) (bs : list B) :
  mapM f l = Ok bs -> length bs = length l.
Proof.
  revert bs. induction l as [| a l IH]; simpl; intros bs H.
  - injection H as <-. reflexivity.
  - bind_inv H. bind_inv H. injection H as <-. simpl. f_equal. eauto.
Qed.

Lemma mapM_Ok_In (A B : Type) (f : A -> result B) (l : list A) (bs : list B) (a : A) :
  mapM f l = Ok bs -> In a l -> exists b, f a = Ok b /\ In b bs.
Proof.
  revert bs. induction l as [| x l IH]; simpl; intros bs H Hin.
  - contradiction.
  - bind_inv H. bind_inv H. injection H as <-.
    destruct Hin as [-> | Hin].
    + eexists. split; [eassumption | left; reflexivity].
    + destruct (IH _ Hm0 Hin) as [b [Hb Hbin]].
      exists b. split; [exact Hb | right; exact Hbin].
Qed.

Lemma mapM_Ok_In_inv (A B : Type) (f : A -> result B) (l : list A) (bs : list B) (b : B) :
  mapM f l = Ok bs -> In b bs -> exists a, In a l /\ f a = Ok b.
Proof.
  revert bs. induction l as [| x l IH]; simpl; intros bs H Hin.
  - injection H as <-. contradiction.
  - bind_inv H. bind_inv H. injection H as <-.
    destruct Hin as [<- | Hin].
    + exists x. split; [left; reflexivity | assumption].
    + destruct (IH _ Hm0 Hin) as [a' [Ha' Hf]].
      exists a'. split; [right; exact Ha' | exact Hf].
Qed.

Lemma mapM_ext_in (A B : Type) (f g : A -> result B) (l : list A) :
  (forall a, In a l -> f a = g a) -> mapM f l = mapM g l.
Proof.
  induction l as [| x l IH]; simpl; intros H.
  - reflexivity.
  - rewrite (H x (or_introl eq_refl)).
    rewrite IH by (intros a Ha; apply H; right; exact Ha).
    reflexivity.
Qed.

Lemma mapM_nth_error (A B : Type) (f : A -> result B) (l : list A) (bs : list B)
    (i : nat) (a : A) :
  mapM f l = Ok bs -> nth_error l i = Some a ->
  exists b, f a = Ok b /\ nth_error bs i = Some b.
Proof.
  revert bs i. induction l as [| x l IH]; simpl; intros bs i H Hi.
  - destruct i; discriminate Hi.
  - bind_inv H. bind_inv H. injection H as <-.
    destruct i as [| i]; simpl in Hi.
    + injection Hi as <-. eexists. split; [eassumption | reflexivity].
    + simpl. eapply IH; eassumption.
Qed.



(** ** Strings and [replace] *)

Lemma chars_str (l : list ascii) : Py.chars (Py.str l) = l.
Proof. apply list_ascii_of_string_of_list_ascii. Qed.

Lemma str_chars (s : string) : Py.str (Py.chars s) = s.
Proof. apply string_of_list_ascii_of_string. Qed.

Section ReplaceFacts.

Variable A : Type.
Variable eqb : A -> A -> bool.
Variables old new : list A.


Lemma find_nil_nonempty (a : A) (p : list A) : Py.find eqb (a :: p) [] = None.
Proof. reflexivity. Qed.




(** Where the remainder holds a further occurrence, [replace] and
    [replace_first] differ in it: the former goes on replacing. *)
Lemma replace_first_unfold (s : list A) :
  Py.replace_first eqb s old new
  = match Py.find eqb old s with
    | None => s
    | Some i => firstn i s ++ new ++ skipn (i + length old) s
    end.
Proof. reflexivity. Qed.

End ReplaceFacts.

(** ** Where the rows of the extractor come from *)

Lemma mapM_concat_In (A B : Type) (f : A -> result (list B)) (l : list A)
    (bss : list (list B)) (b : B) :
  mapM f l = Ok bss ->
  (In b (concat bss) <-> exists a bs, In a l /\ f a = Ok bs /\ In b bs).
Proof.
  intros H. rewrite in_concat. split.
  - intros [bs [Hbs Hb]].
    destruct (mapM_Ok_In_inv _ _ _ _ _ _ H Hbs) as [a [Ha Hf]].
    exists a, bs. auto.
  - intros [a [bs [Ha [Hf Hb]]]].
    destruct (mapM_Ok_In _ _ _ _ _ a H Ha) as [bs' [Hf' Hbs']].
    rewrite Hf in Hf'. injection Hf' as <-.
    exists bs. auto.
Qed.

Section ExtractorFacts.

Import Extractor ExtractorSpec.

Variable read_csv : string -> result DataFrame.
Variable nlp : string -> result Doc.
Variable re_other : string -> string -> result bool.

Lemma scan_patterns_spec sent chunk tid patterns rows :
  scan_patterns re_other sent chunk tid patterns = Ok rows ->
  rows = map (make_row sent chunk tid)
           (filter (hit re_other (Py.lower (nc_text chunk))) patterns).
Proof.
  revert rows. induction patterns as [| p ps IH]; simpl; intros rows H.
  - injection H as <-. reflexivity.
  - bind_inv H. bind_inv H. injection H as <-.
    unfold hit at 1. rewrite Hm.
    rewrite (IH _ Hm0). destruct a; reflexivity.
Qed.

Lemma scan_chunk_spec entities sent tid chunk rows :
  scan_chunk re_other sent tid (pattern_list entities) chunk = Ok rows ->
  rows = chunk_rows re_other entities sent tid chunk.
Proof.
  unfold scan_chunk, chunk_rows.
  destruct (is_subject_or_object chunk); intros H.
  - apply scan_patterns_spec. exact H.
  - injection H as <-. reflexivity.
Qed.

Lemma scan_sentence_In entities tid sent rows row :
  scan_sentence re_other tid (pattern_list entities) sent = Ok rows ->
  (In row rows <->
   exists chunk, In chunk (sent_noun_chunks sent)
                 /\ In row (chunk_rows re_other entities sent tid chunk)).
Proof.
  unfold scan_sentence. intros H. bind_inv H. injection H as <-.
  rewrite (mapM_concat_In _ _ _ _ _ row Hm). split.
  - intros [chunk [bs [Hc [Hf Hb]]]]. apply scan_chunk_spec in Hf. subst bs.
    exists chunk. auto.
  - intros [chunk [Hc Hb]].
    destruct (mapM_Ok_In _ _ _ _ _ chunk Hm Hc) as [bs [Hf _]].
    exists chunk, bs. repeat split; try assumption.
    apply scan_chunk_spec in Hf. subst bs. exact Hb.
Qed.

Lemma scan_doc_In entities tid doc rows row :
  scan_doc re_other tid (pattern_list entities) doc = Ok rows ->
  (In row rows <->
   exists sent chunk, In sent doc /\ In chunk (sent_noun_chunks sent)
                      /\ In row (chunk_rows re_other entities sent tid chunk)).
Proof.
  unfold scan_doc. intros H. bind_inv H. injection H as <-.
  rewrite (mapM_concat_In _ _ _ _ _ row Hm). split.
  - intros [sent [bs [Hs [Hf Hb]]]].
    apply (scan_sentence_In _ _ _ _ row Hf) in Hb. destruct Hb as [chunk [Hc Hr]].
    exists sent, chunk. auto.
  - intros [sent [chunk [Hs [Hc Hr]]]].
    destruct (mapM_Ok_In _ _ _ _ _ sent Hm Hs) as [bs [Hf _]].
    exists sent, bs. repeat split; try assumption.
    apply (scan_sentence_In _ _ _ _ row Hf). exists chunk. auto.
Qed.

Lemma scan_row_In input entities cols tcol idcol k rows row :
  scan_row nlp re_other input (pattern_list entities) cols tcol idcol k = Ok rows ->
  (In row rows <->
   exists t tid doc sent chunk,
     row_get cols k tcol = Ok (Str t)
     /\ text_id_of input cols idcol k = Ok tid
     /\ Py.truthy (Py.str_strip_ws t) = true
     /\ nlp t = Ok doc
     /\ In sent doc /\ In chunk (sent_noun_chunks sent)
     /\ In row (chunk_rows re_other entities sent tid chunk)).
Proof.
  unfold scan_row. intros H. bind_inv H. bind_inv H.
  destruct a as [| t | z]; try discriminate H.
  destruct (Py.truthy (Py.str_strip_ws t)) eqn:Ht.
  - bind_inv H. split.
    + intros Hin. apply (scan_doc_In _ _ _ _ row H) in Hin.
      destruct Hin as [sent [chunk [Hs [Hc Hr]]]].
      exists t, a0, a, sent, chunk. repeat split; assumption.
    + intros [t' [tid [doc [sent [chunk (Ht' & Htid & _ & Hdoc & Hs & Hc & Hr)]]]]].
      rewrite Hm in Ht'. injection Ht' as <-.
      rewrite Hm0 in Htid. injection Htid as <-.
      rewrite Hm1 in Hdoc. injection Hdoc as <-.
      apply (scan_doc_In _ _ _ _ row H). exists sent, chunk. auto.
  - injection H as <-. split.
    + intros [].
    + intros [t' [tid [doc [sent [chunk (Ht' & _ & Htr & _)]]]]].
      rewrite Hm in Ht'. injection Ht' as <-.
      rewrite Ht in Htr. discriminate Htr.
Qed.

(** The rows of the output table are exactly the rows contributed by the
    noun chunks of the parsed texts. *)
Lemma parse_sentences_In input entities tcol idcol table row :
  parse_sentences_from_file read_csv nlp re_other input entities tcol idcol
  = Ok table ->
  (In row table <->
   exists tid sent chunk,
     parsed_chunk read_csv nlp input tcol idcol tid sent chunk
     /\ In row (chunk_rows re_other entities sent tid chunk)).
Proof.
  unfold parse_sentences_from_file. intros H.
  bind_inv H. bind_inv H. bind_inv H.
  assert (Ht : table = concat a1).
  { destruct (concat a1); [discriminate H | injection H as <-; reflexivity]. }
  subst table. clear H.
  rewrite (mapM_concat_In _ _ _ _ _ row Hm1). split.
  - intros [k [bs [Hk [Hf Hb]]]].
    apply (scan_row_In _ _ _ _ _ _ _ row Hf) in Hb.
    destruct Hb as [t [tid [doc [sent [chunk (H1 & H2 & H3 & H4 & H5 & H6 & H7)]]]]].
    exists tid, sent, chunk. split; [| exact H7].
    econstructor; eassumption.
  - intros [tid [sent [chunk [Hp Hr]]]].
    destruct Hp as [raw df k t tid doc sent chunk H1 H2 H3 H4 H5 H6 H7 H8 H9].
    rewrite Hm in H1. injection H1 as <-.
    rewrite Hm0 in H2. injection H2 as <-.
    destruct (mapM_Ok_In _ _ _ _ _ k Hm1 H3) as [bs [Hf _]].
    exists k, bs. repeat split; try assumption.
    apply (scan_row_In _ _ _ _ _ _ _ row Hf).
    exists t, tid, doc, sent, chunk. repeat split; assumption.
Qed.


End ExtractorFacts.

(** ** The masked sentence *)

Section MaskedSentence.

Import Extractor ExtractorSpec.

Local Open Scope string_scope.




End MaskedSentence.

(** ** The recorded entity *)

Section StripFacts.

Variable A : Type.
Variable set : A -> bool.

Lemma lstrip_app_all (p s : list A) :
  forallb set p = true -> Py.lstrip set (p ++ s) = Py.lstrip set s.
Proof.
  induction p as [| c p IH]; simpl; intros H.
  - reflexivity.
  - apply andb_prop in H. destruct H as [Hc Hp]. rewrite Hc. apply IH. exact Hp.
Qed.

Lemma lstrip_stops (c : A) (s : list A) :
  set c = false -> Py.lstrip set (c :: s) = c :: s.
Proof. intros H. simpl. rewrite H. reflexivity. Qed.

(** Stripping a text wrapped in characters of the set gives the text back
    when the text neither starts nor ends with a character of the set. *)
Lemma strip_wrapped (p q e : list A) (c d : A) :
  forallb set p = true -> forallb set q = true ->
  hd_error e = Some c -> set c = false ->
  hd_error (rev e) = Some d -> set d = false ->
  Py.strip set (p ++ e ++ q) = e.
Proof.
  intros Hp Hq Hc Hcs Hd Hds.
  unfold Py.strip, Py.rstrip.
  rewrite lstrip_app_all by exact Hp.
  destruct e as [| c' e']; [discriminate Hc |].
  injection Hc as ->.
  change ((c :: e') ++ q) with (c :: (e' ++ q)).
  rewrite lstrip_stops by exact Hcs.
  change (c :: e' ++ q) with ((c :: e') ++ q).
  rewrite rev_app_distr.
  rewrite lstrip_app_all.
  - destruct (rev (c :: e')) as [| d' r] eqn:E; [discriminate Hd |].
    injection Hd as ->.
    rewrite lstrip_stops by exact Hds.
    rewrite <- E. apply rev_involutive.
  - rewrite forallb_forall in *. intros x Hx. apply Hq.
    apply in_rev. exact Hx.
Qed.

End StripFacts.

Lemma chars_append (s1 s2 : string) :
  Py.chars (s1 ++ s2)%string = Py.chars s1 ++ Py.chars s2.
Proof.
  unfold Py.chars. induction s1 as [| c s1 IH]; simpl.
  - reflexivity.
  - f_equal. exact IH.
Qed.

Lemma chars_pattern_of (e : string) :
  Py.chars (Extractor.pattern_of e)
  = Re.backslash_b ++ Py.chars e ++ Re.backslash_b.
Proof.
  unfold Extractor.pattern_of. rewrite !chars_append. reflexivity.
Qed.

Section RecordedTerm.

Import Extractor ExtractorSpec.

Local Open Scope string_scope.

(** What [original_term] holds: the pattern, stripped of the characters
    backslash and b at both ends. *)
Lemma original_term_of_row
    (read_csv : string -> result DataFrame) (nlp : string -> result Doc)
    (re_other : string -> string -> result bool)
    (input : string) (entities : list string) (tcol idcol : string)
    (table : list SentenceMatch) (row : SentenceMatch) :
  parse_sentences_from_file read_csv nlp re_other input entities tcol idcol
  = Ok table ->
  In row table ->
  exists e, In e entities /\ original_term row = Py.str_strip (pattern_of e) "\b".
Proof.
  intros Hrun Hrow.
  apply (parse_sentences_In _ _ _ _ _ _ _ _ row Hrun) in Hrow.
  destruct Hrow as [tid [sent [chunk [_ Hr]]]].
  unfold chunk_rows in Hr.
  destruct (is_subject_or_object chunk); [| contradiction].
  apply in_map_iff in Hr. destruct Hr as [p [<- Hp]].
  apply filter_In in Hp. destruct Hp as [Hp _].
  unfold pattern_list in Hp. apply in_map_iff in Hp.
  destruct Hp as [e [<- He]].
  exists e. split; [exact He | reflexivity].
Qed.

(** An entity that neither starts nor ends with a backslash or a [b] is
    recorded as it is. *)
Lemma strip_pattern_plain (e : string) (c d : ascii) :
  hd_error (Py.chars e) = Some c -> Py.mem_chars "\b" c = false ->
  hd_error (rev (Py.chars e)) = Some d -> Py.mem_chars "\b" d = false ->
  Py.str_strip (pattern_of e) "\b" = e.
Proof.
  intros Hc Hcs Hd Hds. unfold Py.str_strip.
  rewrite chars_pattern_of.
  rewrite (strip_wrapped _ (Py.mem_chars "\b") Re.backslash_b Re.backslash_b
             (Py.chars e) c d eq_refl eq_refl Hc Hcs Hd Hds).
  apply str_chars.
Qed.

(** C6 at the entity "bot": the extractor, run on a text in which "The bot"
    is the subject, emits one row, and that row records "ot" as
    [original_term], not "bot": stripping the pattern removes the entity's
    own leading [b] together with the boundary markers. *)
Theorem C6_original_term_of_bot_is_ot :
  parse_sentences_from_file Samples.read_csv Samples.nlp Samples.re_other
    "in.csv" ["bot"] "abstract" "acl_id" = Ok [Samples.bot_row]
  /\ original_noun Samples.bot_row = "the bot"
  /\ original_term Samples.bot_row = "ot"
  /\ original_term Samples.bot_row <> "bot".
Proof.
  split; [vm_compute; reflexivity |].
  split; [vm_compute; reflexivity |].
  split; [vm_compute; reflexivity |].
  vm_compute. discriminate.
Qed.

End RecordedTerm.

(** ** Which noun chunks match *)

Section WordSearch.

Import ExtractorSpec.

Lemma startswith_nth (e l : list ascii) :
  Py.startswith Ascii.eqb e l = true ->
  forall j c, nth_error e j = Some c -> nth_error l j = Some c.
Proof.
  revert l. induction e as [| a e IH]; intros l H j c Hj.
  - destruct j; discriminate Hj.
  - destruct l as [| b l]; [discriminate H |].
    simpl in H. apply andb_prop in H. destruct H as [Hab He].
    apply Ascii.eqb_eq in Hab. subst b.
    destruct j as [| j]; simpl in *.
    + exact Hj.
    + eapply IH; eassumption.
Qed.

Lemma last_of_rev (A : Type) (e : list A) (d : A) :
  hd_error (rev e) = Some d ->
  exists m, length e = S m /\ nth_error e m = Some d.
Proof.
  intros H. destruct (rev e) as [| d' r] eqn:E; [discriminate H |].
  injection H as ->.
  assert (He : e = rev r ++ [d]).
  { rewrite <- (rev_involutive e), E. reflexivity. }
  exists (length (rev r)). subst e. split.
  - rewrite length_app. simpl. lia.
  - rewrite nth_error_app2 by lia. rewrite Nat.sub_diag. reflexivity.
Qed.

(** For an entity that starts and ends with a word character, a match at an
    occurrence depends on the two neighbours of the occurrence only. *)
Lemma match_at_word_ended (e text : list ascii) (i : nat) :
  word_ended e ->
  Py.startswith Ascii.eqb e (skipn i text) = true ->
  i < length text
  /\ Re.match_at e text i
     = negb (Re.word_at text i) && negb (Re.word_at text (S (i + length e))).
Proof.
  intros [c [Hc [Hcw [d [Hd Hdw]]]]] Hs.
  destruct e as [| c' e']; [discriminate Hc |]. injection Hc as ->.
  assert (H0 : nth_error text i = Some c).
  { pose proof (startswith_nth _ _ Hs 0 _ eq_refl) as H.
    rewrite nth_error_skipn, Nat.add_0_r in H. exact H. }
  destruct (last_of_rev _ _ _ Hd) as [m [Hlen Hm]].
  assert (H1 : nth_error text (i + m) = Some d).
  { rewrite <- nth_error_skipn. apply (startswith_nth _ _ Hs m). exact Hm. }
  split.
  - apply nth_error_Some. rewrite H0. discriminate.
  - unfold Re.match_at, Re.boundary. rewrite Hs, Hlen.
    rewrite Nat.add_succ_r.
    cbn [Re.word_at]. rewrite H0, H1, Hcw, Hdw.
    destruct (Re.word_at text i);
      destruct (match nth_error text (S (i + m)) with
                | Some c0 => Re.is_word c0
                | None => false
                end); reflexivity.
Qed.

(** The word-boundary search finds the entity exactly when it occurs as a
    whole word. *)
Lemma word_search_whole_word (e text : list ascii) :
  word_ended e ->
  (Re.word_search e text = true <-> whole_word_in e text).
Proof.
  intros He. unfold Re.word_search, whole_word_in.
  rewrite existsb_exists. split.
  - intros [i [_ Hm]].
    assert (Hs : Py.startswith Ascii.eqb e (skipn i text) = true).
    { unfold Re.match_at in Hm.
      apply andb_prop in Hm. destruct Hm as [Hm _].
      apply andb_prop in Hm. destruct Hm as [Hm _]. exact Hm. }
    destruct (match_at_word_ended _ _ _ He Hs) as [_ Heq].
    rewrite Heq in Hm. apply andb_prop in Hm. destruct Hm as [Hl Hr].
    apply negb_true_iff in Hl, Hr. exists i. auto.
  - intros [i [Hs [Hl Hr]]].
    destruct (match_at_word_ended _ _ _ He Hs) as [Hi Heq].
    exists i. split.
    + apply in_seq. lia.
    + rewrite Heq, Hl, Hr. reflexivity.
Qed.

Lemma inside_words_not_whole (e text : list ascii) :
  only_inside_words e text -> ~ whole_word_in e text.
Proof.
  intros Hin [i [Hs [Hl Hr]]].
  destruct (Hin i Hs) as [H | H]; congruence.
Qed.

Lemma forallb_rev (A : Type) (f : A -> bool) (l : list A) :
  forallb f l = true -> forallb f (rev l) = true.
Proof.
  rewrite !forallb_forall. intros H x Hx. apply H. apply in_rev. exact Hx.
Qed.

Lemma literal_core_pattern (e : list ascii) :
  literal e ->
  Re.literal_core (Re.backslash_b ++ e ++ Re.backslash_b) = Some e.
Proof.
  intros He. unfold Re.literal_core, Re.backslash_b.
  cbn [Py.chars list_ascii_of_string app Ascii.eqb Bool.eqb andb].
  rewrite rev_app_distr. cbn [rev app].
  cbn [Ascii.eqb Bool.eqb andb].
  unfold literal in He. rewrite (forallb_rev _ _ _ He), rev_involutive.
  reflexivity.
Qed.

(** On a literal entity the engine is the word-boundary search. *)
Lemma findall_literal (re_other : string -> string -> result bool)
    (e text : string) :
  literal (Py.chars e) ->
  Re.findall_nonempty re_other (Extractor.pattern_of e) text
  = Ok (Re.word_search (Py.chars e) (Py.chars text)).
Proof.
  intros He. unfold Re.findall_nonempty.
  rewrite chars_pattern_of, literal_core_pattern by exact He.
  reflexivity.
Qed.

End WordSearch.

Section ChunkRows.

Import Extractor ExtractorSpec.

Variable re_other : string -> string -> result bool.

Lemma hit_true (text pattern : string) :
  hit re_other text pattern = true
  <-> Re.findall_nonempty re_other pattern text = Ok true.
Proof.
  unfold hit. destruct (Re.findall_nonempty re_other pattern text) as [[|] | x];
    split; intros H; try reflexivity; discriminate H.
Qed.

Lemma chunk_rows_nonempty entities sent tid chunk :
  chunk_rows re_other entities sent tid chunk <> []
  <-> is_subject_or_object chunk = true
      /\ exists e, In e entities
                   /\ Re.findall_nonempty re_other (pattern_of e)
                        (Py.lower (nc_text chunk)) = Ok true.
Proof.
  unfold chunk_rows. destruct (is_subject_or_object chunk).
  - split.
    + intros H. split; [reflexivity |].
      destruct (filter (hit re_other (Py.lower (nc_text chunk)))
                  (pattern_list entities)) as [| p ps] eqn:E.
      * contradiction H. reflexivity.
      * assert (Hp : In p (p :: ps)) by (left; reflexivity).
        rewrite <- E in Hp. apply filter_In in Hp. destruct Hp as [Hp Hh].
        unfold pattern_list in Hp. apply in_map_iff in Hp.
        destruct Hp as [e [<- He]].
        exists e. split; [exact He | apply hit_true; exact Hh].
    + intros [_ [e [He Hf]]] Hnil.
      apply map_eq_nil in Hnil.
      assert (Hp : In (pattern_of e)
                     (filter (hit re_other (Py.lower (nc_text chunk)))
                        (pattern_list entities))).
      { apply filter_In. split.
        - unfold pattern_list. apply in_map. exact He.
        - apply hit_true. exact Hf. }
      rewrite Hnil in Hp. contradiction Hp.
  - split.
    + intros H. contradiction H. reflexivity.
    + intros [H _]. discriminate H.
Qed.

Lemma filter_map_comm (A B : Type) (f : A -> B) (p : B -> bool) (l : list A) :
  filter p (map f l) = map f (filter (fun a => p (f a)) l).
Proof.
  induction l as [| a l IH]; simpl.
  - reflexivity.
  - destruct (p (f a)); simpl; rewrite IH; reflexivity.
Qed.

(** One row for every entity of the list whose pattern matches. *)
Lemma chunk_rows_length entities sent tid chunk :
  length (chunk_rows re_other entities sent tid chunk)
  = if is_subject_or_object chunk
    then length (filter (fun e => hit re_other (Py.lower (nc_text chunk))
                                    (pattern_of e)) entities)
    else 0.
Proof.
  unfold chunk_rows. destruct (is_subject_or_object chunk).
  - unfold pattern_list. rewrite filter_map_comm, !length_map. reflexivity.
  - reflexivity.
Qed.

End ChunkRows.

Section Matching.

Import Extractor ExtractorSpec.

Local Open Scope string_scope.

(** C7, as the script behaves: the rows the extractor emits for a noun
    chunk with an ASCII text.  There is a row if and only if the chunk is a
    nominal subject or a direct object and the word-boundary pattern of
    some entity of the list matches its lowercased text; there is one row
    per matching entity pattern.  For an entity without regex
    metacharacters that starts and ends with a word character the pattern
    matches exactly when the entity occurs as a whole word, so such an
    entity that only occurs inside longer words does not match.  A sentence
    can give no row, one row, or several (two noun phrases, or one noun
    phrase and two entities). *)
Theorem C7_chunk_matches_iff_whole_word
    (re_other : string -> string -> result bool) (entities : list string)
    (sent : Sentence) (tid : cell) (chunk : NounChunk)
    (rows : list SentenceMatch) :
  is_ascii (Py.chars (nc_text chunk)) ->
  scan_chunk re_other sent tid (pattern_list entities) chunk = Ok rows ->
  (rows <> []
   <-> is_subject_or_object chunk = true
       /\ exists e, In e entities
                    /\ Re.findall_nonempty re_other (pattern_of e)
                         (Py.lower (nc_text chunk)) = Ok true)
  /\ rows = chunk_rows re_other entities sent tid chunk
  /\ length rows
     = (if is_subject_or_object chunk
        then length (filter (fun e => hit re_other (Py.lower (nc_text chunk))
                                        (pattern_of e)) entities)
        else 0)
  /\ (forall e, literal (Py.chars e) -> word_ended (Py.chars e) ->
        (Re.findall_nonempty re_other (pattern_of e) (Py.lower (nc_text chunk))
         = Ok true
         <-> whole_word_in (Py.chars e) (Py.chars (Py.lower (nc_text chunk)))))
  /\ (forall e, literal (Py.chars e) -> word_ended (Py.chars e) ->
        only_inside_words (Py.chars e) (Py.chars (Py.lower (nc_text chunk))) ->
        Re.findall_nonempty re_other (pattern_of e) (Py.lower (nc_text chunk))
        = Ok false)
  /\ scan_sentence Samples.re_other (Str "P3") (pattern_list ["mod"])
       Samples.model_sentence = Ok []
  /\ scan_sentence Samples.re_other (Str "P1") (pattern_list ["bot"])
       Samples.bot_sentence = Ok [Samples.bot_row]
  /\ (exists r1 r2,
        scan_sentence Samples.re_other (Str "P3") (pattern_list ["model"])
          Samples.model_sentence = Ok [r1; r2]
        /\ POS r1 <> POS r2)
  /\ (exists r1 r2,
        scan_sentence Samples.re_other (Str "P4")
          (pattern_list ["model"; "system"]) Samples.both_sentence = Ok [r1; r2]
        /\ original_term r1 = "model" /\ original_term r2 = "system").
Proof.
  intros _ Hrun. apply scan_chunk_spec in Hrun. subst rows.
  split; [apply chunk_rows_nonempty |].
  split; [reflexivity |].
  split; [apply chunk_rows_length |].
  split.
  { intros e Hlit Hw. rewrite findall_literal by exact Hlit.
    rewrite <- (word_search_whole_word _ _ Hw). split.
    - intros H. injection H as H. exact H.
    - intros H. rewrite H. reflexivity. }
  split.
  { intros e Hlit Hw Hin. rewrite findall_literal by exact Hlit.
    destruct (Re.word_search (Py.chars e)
                (Py.chars (Py.lower (nc_text chunk)))) eqn:E.
    - apply (word_search_whole_word _ _ Hw) in E.
      contradiction (inside_words_not_whole _ _ Hin E).
    - reflexivity. }
  split; [vm_compute; reflexivity |].
  split; [vm_compute; reflexivity |].
  split.
  - eexists. eexists. split; [vm_compute; reflexivity |].
    vm_compute. discriminate.
  - eexists. eexists. split; [vm_compute; reflexivity |].
    split; vm_compute; reflexivity.
Qed.

Lemma C7_chunk_matches_witness :
  [Samples.bot_row] <> []
  <-> is_subject_or_object Samples.bot_chunk = true
      /\ exists e, In e ["bot"]
                   /\ Re.findall_nonempty Samples.re_other (pattern_of e)
                        (Py.lower (nc_text Samples.bot_chunk)) = Ok true.
Proof.
  apply (C7_chunk_matches_iff_whole_word Samples.re_other ["bot"]
           Samples.bot_sentence (Str "P1") Samples.bot_chunk [Samples.bot_row]).
  - vm_compute. reflexivity.
  - vm_compute. reflexivity.
Defined.

(** C7 as worded fails for entities that do not start and end with a word
    character.  The entity "-bot" stands as a whole word in "the -bot",
    the text of a subject chunk, and the chunk gives no row: there is no
    word boundary between the space and the hyphen.  The entity "-" occurs
    in "x-y" only inside a longer word, and the object chunk gives a row:
    there is a word boundary on each side of the hyphen. *)
Lemma C7_whole_word_reading_fails :
  (is_ascii (Py.chars (nc_text Samples.dash_bot_chunk))
   /\ is_subject_or_object Samples.dash_bot_chunk = true
   /\ literal (Py.chars "-bot")
   /\ whole_word_in (Py.chars "-bot")
        (Py.chars (Py.lower (nc_text Samples.dash_bot_chunk)))
   /\ scan_chunk Samples.re_other Samples.dash_bot_sentence (Str "P5")
        (pattern_list ["-bot"]) Samples.dash_bot_chunk = Ok [])
  /\ (is_ascii (Py.chars (nc_text Samples.hyphen_chunk))
      /\ is_subject_or_object Samples.hyphen_chunk = true
      /\ literal (Py.chars "-")
      /\ only_inside_words (Py.chars "-")
           (Py.chars (Py.lower (nc_text Samples.hyphen_chunk)))
      /\ scan_chunk Samples.re_other Samples.hyphen_sentence (Str "P6")
           (pattern_list ["-"]) Samples.hyphen_chunk
         = Ok [make_row Samples.hyphen_sentence Samples.hyphen_chunk (Str "P6")
                 (pattern_of "-")]
      /\ original_term (make_row Samples.hyphen_sentence Samples.hyphen_chunk
                          (Str "P6") (pattern_of "-")) = "-").
Proof.
  split.
  - split; [vm_compute; reflexivity |].
    split; [vm_compute; reflexivity |].
    split; [vm_compute; reflexivity |].
    split; [| vm_compute; reflexivity].
    exists 4. vm_compute. repeat split; reflexivity.
  - split; [vm_compute; reflexivity |].
    split; [vm_compute; reflexivity |].
    split; [vm_compute; reflexivity |].
    split; [| split; vm_compute; reflexivity].
    intros i Hi.
    destruct i as [| [| [| [| i]]]]; try (vm_compute in Hi; discriminate Hi).
    left. vm_compute. reflexivity.
Qed.

End Matching.

(** ** Running the extractor twice *)

Section StatefulRun.

Import Extractor ExtractorSpec.

Variable St : Type.
Variable nlp : St -> string -> result Doc * St.
Variable re_other : string -> string -> result bool.
Variable reparse : list SentenceMatch -> result DataFrame.

Variable input : string.
Variable entities : list string.
Variables tcol idcol output : string.

Local Notation "'run' w" :=
  (ExtractorIO.parse_sentences_from_file nlp re_other reparse w input entities
     tcol idcol output) (at level 10, w at level 9).




(** From here on the parser is deterministic: what it answers on a text
    does not depend on the state it is in. *)
Hypothesis nlp_deterministic : forall s s' t, fst (nlp s t) = fst (nlp s' t).

Variable s0 : St.








End StatefulRun.

Section TwoRuns.

Import Extractor ExtractorSpec.

Local Open Scope string_scope.



(** The two conditions are needed.  A parser whose answers depend on its
    state makes the second run differ from the first. *)
Lemma rerun_with_a_stateful_parser :
  let run := fun w =>
    ExtractorIO.parse_sentences_from_file IOSamples.tiring_nlp Samples.re_other
      IOSamples.reparse w "in.csv" ["bot"] "abstract" "acl_id" "out.csv" in
  fst (run IOSamples.fresh) = Ok [Samples.bot_row]
  /\ fst (run (snd (run IOSamples.fresh))) = Raise ValueError.
Proof.
  split; vm_compute; reflexivity.
Qed.

(** A run that writes its table over the input file changes the input of
    the next run, which then stops for want of the text column. *)
Lemma rerun_over_the_input :
  let run := fun w =>
    ExtractorIO.parse_sentences_from_file IOSamples.counting_nlp
      Samples.re_other IOSamples.reparse w "in.csv" ["model"] "abstract" ""
      "in.csv" in
  fst (run IOSamples.fresh) = Ok Samples.model_rows
  /\ fst (run (snd (run IOSamples.fresh))) = Raise KeyError.
Proof.
  split; vm_compute; reflexivity.
Qed.

End TwoRuns.

(** ** The scorer: locating the mask *)

Section ScorerFacts.

Import Scorer ScorerSpec.

Variable tokenizer : Tokenizer.
Variable model : list Z -> result (list (list R)).
Variable softmax : list R -> list R.
Variable uninit : nat -> nat -> R.

(** The second lookup of the mask runs on the same token sequence as the
    first, so it fails whenever the first one did: the window of lines 51
    to 54 is never taken. *)
Lemma locate_mask_eq (sent : string) :
  locate_mask tokenizer sent
  = match mask_positions (mask_token_id tokenizer) 0 (encode tokenizer sent) with
    | masked_pos :: _ => Ok (Some (encode tokenizer sent, masked_pos))
    | [] => Ok None
    end.
Proof.
  unfold locate_mask.
  destruct (mask_positions (mask_token_id tokenizer) 0 (encode tokenizer sent));
    reflexivity.
Qed.

Lemma np_empty_length (alloc n : nat) : length (np_empty uninit alloc n) = n.
Proof. unfold np_empty. rewrite length_map, length_seq. reflexivity. Qed.

(** Every vector [get_prediction] returns has one entry per pronoun. *)
Lemma get_prediction_length (alloc : nat) (sent : string) (v : list R) :
  get_prediction tokenizer model softmax uninit alloc sent = Ok v ->
  length v = length terms.
Proof.
  unfold get_prediction. intros H.
  bind_inv H. bind_inv H.
  destruct a0 as [[token_ids masked_pos] |].
  - bind_inv H. bind_inv H.
    apply mapM_Ok_length in H. apply mapM_Ok_length in Hm. congruence.
  - injection H as <-. apply np_empty_length.
Qed.

(** An unresolvable sentence gets the uninitialised vector. *)
Lemma get_prediction_unresolvable (alloc : nat) (sent : string) (inds : list Z) :
  mapM (lookup_vocab tokenizer) terms = Ok inds ->
  unresolvable tokenizer sent ->
  get_prediction tokenizer model softmax uninit alloc sent
  = Ok (np_empty uninit alloc (length terms)).
Proof.
  intros Hv Hu. unfold get_prediction. rewrite Hv. cbn [bind].
  rewrite locate_mask_eq. unfold unresolvable in Hu. rewrite Hu.
  reflexivity.
Qed.

(** ** The scorer: the loop *)

Lemma predict_from_length (sents : list string) (i : nat) (vs : list (list R)) :
  predict_from tokenizer model softmax uninit i sents = Ok vs ->
  length vs = length sents.
Proof.
  revert i vs. induction sents as [| x rest IH]; simpl; intros i vs H.
  - injection H as <-. reflexivity.
  - bind_inv H. bind_inv H. injection H as <-. simpl. f_equal. eauto.
Qed.

Lemma predict_from_widths (sents : list string) (i : nat) (vs : list (list R)) :
  predict_from tokenizer model softmax uninit i sents = Ok vs ->
  Forall (fun v => length v = length terms) vs.
Proof.
  revert i vs. induction sents as [| x rest IH]; simpl; intros i vs H.
  - injection H as <-. constructor.
  - bind_inv H. bind_inv H. injection H as <-. constructor.
    + eapply get_prediction_length. eassumption.
    + eapply IH. eassumption.
Qed.

Lemma predict_from_nth (sents : list string) (i : nat) (vs : list (list R))
    (j : nat) (x : string) :
  predict_from tokenizer model softmax uninit i sents = Ok vs ->
  nth_error sents j = Some x ->
  exists v, get_prediction tokenizer model softmax uninit (S (i + j)) x = Ok v
            /\ nth_error vs j = Some v.
Proof.
  revert i vs j. induction sents as [| y rest IH]; simpl; intros i vs j H Hj.
  - destruct j; discriminate Hj.
  - bind_inv H. bind_inv H. injection H as <-.
    destruct j as [| j]; simpl in Hj.
    + injection Hj as <-. rewrite Nat.add_0_r.
      eexists. split; [eassumption | reflexivity].
    + destruct (IH _ _ _ Hm0 Hj) as [v [Hv Hn]].
      exists v. split; [| exact Hn].
      rewrite Nat.add_succ_r. exact Hv.
Qed.

Lemma predict_from_app (l1 l2 : list string) (i : nat) :
  predict_from tokenizer model softmax uninit i (l1 ++ l2)
  = (v1 <- predict_from tokenizer model softmax uninit i l1 ;;
     v2 <- predict_from tokenizer model softmax uninit (i + length l1) l2 ;;
     Ok (v1 ++ v2))%py.
Proof.
  revert i. induction l1 as [| x l1 IH]; intros i.
  - simpl. rewrite Nat.add_0_r.
    destruct (predict_from tokenizer model softmax uninit i l2); reflexivity.
  - replace (i + length (x :: l1)) with (S i + length l1) by (simpl; lia).
    cbn [app predict_from]. rewrite IH.
    destruct (get_prediction tokenizer model softmax uninit (S i) x) as [v | e];
      [| reflexivity].
    cbn [bind].
    destruct (predict_from tokenizer model softmax uninit (S i) l1) as [v1 | e];
      [| reflexivity].
    cbn [bind].
    destruct (predict_from tokenizer model softmax uninit (S i + length l1) l2);
      reflexivity.
Qed.

Lemma vstack_same_width (final : Np.ndarray) (newrow : list R) :
  Forall (fun r => length r = length terms) (Np.atleast_2d final) ->
  length newrow = length terms ->
  Np.vstack final newrow = Ok (Np.Arr2 (Np.atleast_2d final ++ [newrow])).
Proof.
  intros Hf Hn. unfold Np.vstack.
  replace (forallb (fun r => Nat.eqb (length r) (length newrow))
             (Np.atleast_2d final)) with true; [reflexivity |].
  symmetry. apply forallb_forall. intros r Hr.
  rewrite Forall_forall in Hf. rewrite (Hf r Hr), Hn. apply Nat.eqb_refl.
Qed.

(** The loop stacks the predictions, in order, under what it started
    from; no width check of [vstack] ever fails. *)
Lemma score_rows_stack (sents : list string) (i : nat) (final : Np.ndarray) :
  Forall (fun r => length r = length terms) (Np.atleast_2d final) ->
  sents <> [] ->
  score_rows tokenizer model softmax uninit i final sents
  = (vs <- predict_from tokenizer model softmax uninit i sents ;;
     Ok (Np.Arr2 (Np.atleast_2d final ++ vs)))%py.
Proof.
  revert i final. induction sents as [| x rest IH]; intros i final Hf Hne.
  - contradiction Hne. reflexivity.
  - cbn [score_rows predict_from].
    destruct (get_prediction tokenizer model softmax uninit (S i) x) as [v | e] eqn:Hv;
      [| reflexivity].
    cbn [bind].
    pose proof (get_prediction_length _ _ _ Hv) as Hlen.
    rewrite vstack_same_width by assumption. cbn [bind].
    destruct rest as [| y rest'].
    + reflexivity.
    + rewrite IH.
      * cbn [Np.atleast_2d].
        destruct (predict_from tokenizer model softmax uninit (S i) (y :: rest'));
          [| reflexivity].
        cbn [bind]. rewrite <- app_assoc. reflexivity.
      * cbn [Np.atleast_2d]. apply Forall_app. split; [exact Hf |].
        constructor; [exact Hlen | constructor].
      * discriminate.
Qed.

(** [get_anthroscore] on a non-empty column: the uninitialised seed row,
    then one row per sentence. *)
Lemma get_anthroscore_stack (sents : list string) :
  sents <> [] ->
  get_anthroscore tokenizer model softmax uninit sents
  = (vs <- predict_from tokenizer model softmax uninit 0 sents ;;
     Ok (Np.Arr2 (np_empty uninit 0 (length terms) :: vs)))%py.
Proof.
  intros Hne. unfold get_anthroscore. rewrite score_rows_stack.
  - reflexivity.
  - cbn [Np.atleast_2d]. constructor; [apply np_empty_length | constructor].
  - exact Hne.
Qed.

End ScorerFacts.

(** ** The scorer: aggregation *)

Lemma combine_map_same (A B C : Type) (f : A -> B) (g : A -> C) (l : list A) :
  combine (map f l) (map g l) = map (fun a => (f a, g a)) l.
Proof.
  induction l as [| a l IH]; simpl; [reflexivity | rewrite IH; reflexivity].
Qed.

(** The column skips the first row of the stack and scores the others. *)
Lemma anthroscore_column_rows (np_log : R -> R) (seed : list R)
    (vs : list (list R)) :
  Scorer.anthroscore_column np_log (Np.Arr2 (seed :: vs))
  = Ok (map (Scorer.row_score np_log) vs).
Proof.
  unfold Scorer.anthroscore_column, Scorer.human_scores, Scorer.nonhuman_scores.
  cbn [bind skipn]. rewrite combine_map_same, map_map. reflexivity.
Qed.

(** ** Long sentences *)

Section LongSentences.

Import Scorer ScorerSpec.

(** C3 on a sentence of 601 tokens with the mask at position 550: the
    first lookup finds the mask in the whole sequence, so the procedure
    hands all 601 tokens to the model and takes no window.  The window
    of lines 51 to 54 would have been the last 512 tokens, with the mask at
    461.  The window itself clamps at the end of the sequence only: for a
    mask at position 100 of 1000 tokens the slice starts at a negative
    index, comes out empty, and the reshape raises. *)
Theorem C3_long_sentence_is_not_recentered :
  length ScorerSamples.long_ids = 601
  /\ mask_positions 50264 0 ScorerSamples.long_ids = [550%Z]
  /\ locate_mask ScorerSamples.tokenizer ScorerSamples.long_sentence
     = Ok (Some (ScorerSamples.long_ids, 550%Z))
  /\ (exists window,
        recenter ScorerSamples.long_ids 550 = Ok window
        /\ length window = 512
        /\ window = Py.slice_from ScorerSamples.long_ids (-512)
        /\ mask_positions 50264 0 window = [461%Z])
  /\ length ScorerSamples.early_ids = 1000
  /\ mask_positions 50264 0 ScorerSamples.early_ids = [100%Z]
  /\ Py.slice ScorerSamples.early_ids (100 - 256) (100 + 256) = []
  /\ recenter ScorerSamples.early_ids 100 = Raise RuntimeError.
Proof.
  split; [vm_compute; reflexivity |].
  split; [vm_compute; reflexivity |].
  split; [vm_compute; reflexivity |].
  split.
  { eexists. split; [vm_compute; reflexivity |].
    split; [vm_compute; reflexivity |].
    split; vm_compute; reflexivity. }
  split; [vm_compute; reflexivity |].
  split; [vm_compute; reflexivity |].
  split; vm_compute; reflexivity.
Qed.

End LongSentences.

(** ** Sentences without a mask *)

Section Unresolvable.

Import Scorer ScorerSpec.

(** C5: for a sentence in which no mask token is found, [get_prediction]
    returns, without raising, a vector with one entry per pronoun of the
    list whose contents are whatever the uninitialised memory held; and the
    loop of [get_anthroscore] goes on: when the sentences before and after
    it are scored, the stacked matrix holds their rows around the row of
    the unresolvable sentence.  The pronouns are taken to be in the
    tokenizer's vocabulary. *)
Theorem C5_unresolvable_row_does_not_stop_the_loop
    (tokenizer : Tokenizer) (model : list Z -> result (list (list R)))
    (softmax : list R -> list R)
    (uninit : nat -> nat -> R) (sent : string) (inds : list Z) :
  mapM (lookup_vocab tokenizer) terms = Ok inds ->
  unresolvable tokenizer sent ->
  (forall alloc,
      get_prediction tokenizer model softmax uninit alloc sent
      = Ok (map (uninit alloc) (seq 0 (length terms)))
      /\ length (map (uninit alloc) (seq 0 (length terms))) = length terms)
  /\ (forall before after vb va,
        predict_from tokenizer model softmax uninit 0 before = Ok vb ->
        predict_from tokenizer model softmax uninit (S (length before)) after = Ok va ->
        get_anthroscore tokenizer model softmax uninit (before ++ sent :: after)
        = Ok (Np.Arr2
                (np_empty uninit 0 (length terms)
                 :: vb
                 ++ np_empty uninit (S (length before)) (length terms)
                 :: va))
        /\ length (vb ++ np_empty uninit (S (length before)) (length terms) :: va)
           = length (before ++ sent :: after)).
Proof.
  intros Hv Hu. split.
  - intros alloc. split.
    + eapply get_prediction_unresolvable; eassumption.
    + apply np_empty_length.
  - intros before after vb va Hb Ha.
    rewrite get_anthroscore_stack by (destruct before; discriminate).
    rewrite predict_from_app. rewrite Hb. cbn [bind predict_from Nat.add].
    erewrite get_prediction_unresolvable by eassumption. cbn [bind].
    rewrite Ha. cbn [bind]. split; [reflexivity |].
    apply predict_from_length in Hb, Ha.
    rewrite !length_app. cbn [length]. rewrite Hb, Ha. reflexivity.
Qed.

Lemma C5_unresolvable_row_witness :
  get_anthroscore ScorerSamples.tokenizer ScorerSamples.model
    ScorerSamples.softmax ScorerSamples.uninit [ScorerSamples.unmasked; ScorerSamples.masked]
  = Ok (Np.Arr2
          [np_empty ScorerSamples.uninit 0 (length terms);
           np_empty ScorerSamples.uninit 1 (length terms);
           ScorerSamples.softmax (repeat 0%R 19)])
  /\ length ([] ++ [np_empty ScorerSamples.uninit 1 (length terms);
                    ScorerSamples.softmax (repeat 0%R 19)])
     = length ([] ++ [ScorerSamples.unmasked; ScorerSamples.masked]).
Proof.
  assert (Hv : mapM (lookup_vocab ScorerSamples.tokenizer) terms
               = Ok (map Z.of_nat (seq 0 19))) by (vm_compute; reflexivity).
  assert (Hu : unresolvable ScorerSamples.tokenizer ScorerSamples.unmasked)
    by (vm_compute; reflexivity).
  destruct (C5_unresolvable_row_does_not_stop_the_loop
              ScorerSamples.tokenizer ScorerSamples.model ScorerSamples.softmax ScorerSamples.uninit
              ScorerSamples.unmasked _ Hv Hu) as [_ Hloop].
  apply (Hloop [] [ScorerSamples.masked] [] [ScorerSamples.softmax (repeat 0%R 19)]);
    reflexivity.
Defined.

End Unresolvable.

(** ** One score per row *)

Lemma nth_error_combine (A B : Type) (l1 : list A) (l2 : list B) (i : nat)
    (a : A) (b : B) :
  nth_error l1 i = Some a -> nth_error l2 i = Some b ->
  nth_error (combine l1 l2) i = Some (a, b).
Proof.
  revert l2 i. induction l1 as [| x l1 IH]; intros l2 i H1 H2.
  - destruct i; discriminate H1.
  - destruct l2 as [| y l2]; [destruct i; discriminate H2 |].
    destruct i as [| i]; simpl in *.
    + injection H1 as <-. injection H2 as <-. reflexivity.
    + apply IH; assumption.
Qed.

Lemma map_fst_combine (A B : Type) (l1 : list A) (l2 : list B) :
  length l1 = length l2 -> map fst (combine l1 l2) = l1.
Proof.
  revert l2. induction l1 as [| x l1 IH]; intros l2 H.
  - reflexivity.
  - destruct l2 as [| y l2]; [discriminate H |].
    simpl. f_equal. apply IH. injection H as H. exact H.
Qed.

Section OneScorePerRow.

Import Extractor Scorer ScorerSpec.

(** C9: the matrix returned by [get_anthroscore] starts with the
    uninitialised row it was seeded with, followed by one row per sentence;
    the aggregation of [main] skips exactly that first row.  So, in every
    run that completes, the [anthroscore] column has one entry per row of
    the table, and entry [i] is the score of the vector predicted for the
    masked sentence of row [i]. *)
Theorem C9_one_score_per_row_in_order
    (tokenizer : Tokenizer) (model : list Z -> result (list (list R)))
    (softmax : list R -> list R)
    (uninit : nat -> nat -> R) (np_log : R -> R)
    (df : list SentenceMatch) (out : list (SentenceMatch * Np.float)) :
  Main.main_scores tokenizer model softmax uninit np_log df = Ok out ->
  exists vs,
    get_anthroscore tokenizer model softmax uninit (map masked_sentence df)
    = Ok (Np.Arr2 (np_empty uninit 0 (length terms) :: vs))
    /\ length vs = length df
    /\ anthroscore_column np_log
         (Np.Arr2 (np_empty uninit 0 (length terms) :: vs))
       = Ok (map (row_score np_log) vs)
    /\ length out = length df
    /\ map fst out = df
    /\ map snd out = map (row_score np_log) vs
    /\ forall i row,
         nth_error df i = Some row ->
         exists v,
           get_prediction tokenizer model softmax uninit (S i) (masked_sentence row)
           = Ok v
           /\ nth_error vs i = Some v
           /\ nth_error out i = Some (row, row_score np_log v).
Proof.
  unfold Main.main_scores. intros H.
  bind_inv_as H bertscores Hget. bind_inv_as H column Hcol.
  assert (Hne : map masked_sentence df <> []).
  { destruct df as [| row0 df']; [| discriminate].
    unfold get_anthroscore in Hget. cbn [map score_rows] in Hget.
    injection Hget as <-. discriminate Hcol. }
  assert (Hstack := get_anthroscore_stack tokenizer model softmax uninit
                      (map masked_sentence df) Hne).
  rewrite Hget in Hstack. symmetry in Hstack.
  bind_inv_as Hstack vs Hvs.
  assert (Hb : bertscores = Np.Arr2 (np_empty uninit 0 (length terms) :: vs))
    by congruence.
  subst bertscores. clear Hstack.
  rewrite anthroscore_column_rows in Hcol. injection Hcol as <-.
  pose proof (predict_from_length _ _ _ _ _ _ _ Hvs) as Hlen.
  rewrite length_map in Hlen.
  rewrite length_map, Hlen, Nat.eqb_refl in H. injection H as <-.
  exists vs. split; [exact Hget |].
  split; [exact Hlen |].
  split; [apply anthroscore_column_rows |].
  split; [rewrite length_combine, length_map, Hlen; apply Nat.min_id |].
  split; [apply map_fst_combine; rewrite length_map; symmetry; exact Hlen |].
  split.
  { clear - Hlen. revert vs Hlen. generalize df. clear df.
    induction df as [| x l IH]; intros vs Hlen.
    - destruct vs; [reflexivity | discriminate Hlen].
    - destruct vs as [| v vs]; [discriminate Hlen |].
      simpl. f_equal. apply IH. injection Hlen as Hlen. exact Hlen. }
  intros i row Hi.
  assert (Hs : nth_error (map masked_sentence df) i = Some (masked_sentence row)).
  { rewrite nth_error_map, Hi. reflexivity. }
  destruct (predict_from_nth _ _ _ _ _ _ _ _ _ Hvs Hs) as [v [Hv Hn]].
  exists v. split; [exact Hv |]. split; [exact Hn |].
  apply nth_error_combine; [exact Hi |].
  rewrite nth_error_map, Hn. reflexivity.
Qed.

Lemma C9_one_score_per_row_witness :
  exists vs,
    get_anthroscore ScorerSamples.tokenizer ScorerSamples.model
      ScorerSamples.softmax ScorerSamples.uninit (map masked_sentence [Samples.bot_row])
    = Ok (Np.Arr2 (np_empty ScorerSamples.uninit 0 (length terms) :: vs))
    /\ length vs = length [Samples.bot_row]
    /\ nth_error vs 0 = Some (ScorerSamples.softmax (repeat 0%R 19)).
Proof.
  assert (Hrun : Main.main_scores ScorerSamples.tokenizer ScorerSamples.model
                   ScorerSamples.softmax ScorerSamples.uninit
                   ScorerSamples.np_log [Samples.bot_row]
                 = Ok [(Samples.bot_row,
                        row_score ScorerSamples.np_log
                          (ScorerSamples.softmax (repeat 0%R 19)))])
    by reflexivity.
  destruct (C9_one_score_per_row_in_order _ _ _ _ _ _ _ Hrun)
    as [vs (Hget & Hlen & _ & _ & _ & _ & Hnth)].
  exists vs. split; [exact Hget |]. split; [exact Hlen |].
  destruct (Hnth 0 Samples.bot_row eq_refl) as [v (Hv & Hn & _)].
  rewrite Hn. f_equal.
  assert (Hp : get_prediction ScorerSamples.tokenizer ScorerSamples.model
                 ScorerSamples.softmax ScorerSamples.uninit 1 (masked_sentence Samples.bot_row)
               = Ok (ScorerSamples.softmax (repeat 0%R 19))) by reflexivity.
  congruence.
Defined.

End OneScorePerRow.

(** ** The pronoun list and the score *)

Section Aggregation.

Import Scorer ScorerSpec.

Local Open Scope R_scope.



(** The sum over the first fifteen and over the last four entries of a
    vector of nineteen, entry by entry. *)
Lemma split_sums (r : list R) :
  length r = length terms ->
  Np.sum (firstn 15 r) = Np.sum (map (fun j => nth j r 0) (seq 0 15))
  /\ Np.sum (skipn 15 r) = Np.sum (map (fun j => nth j r 0) (seq 15 4)).
Proof.
  intros H.
  do 19 (destruct r as [| ? r]; [discriminate H |]).
  destruct r; [| discriminate H].
  split; reflexivity.
Qed.

(** C1, as the list is written: it has nineteen tokens; the first fifteen
    are the human-referring ones and the remaining four ("it", "its", "It",
    "Its") the others.  In every run the human mass of a sentence is the sum
    of entries 0 to 14 of its vector and the other mass is the sum of
    entries 15 to 18. *)
Theorem C1_pronoun_list_is_15_plus_4
    (tokenizer : Tokenizer) (model : list Z -> result (list (list R)))
    (softmax : list R -> list R)
    (uninit : nat -> nat -> R) (sents : list string) (bertscores : Np.ndarray) :
  sents <> [] ->
  get_anthroscore tokenizer model softmax uninit sents = Ok bertscores ->
  length terms = 19%nat
  /\ firstn 15 terms
     = ["you"; "we"; "us"; "he"; "she"; "her"; "him";
        "You"; "We"; "Us"; "He"; "She"; "Her"; "I"; "i"]%string
  /\ skipn 15 terms = ["it"; "its"; "It"; "Its"]%string
  /\ exists seed rows,
       bertscores = Np.Arr2 (seed :: rows)
       /\ length rows = length sents
       /\ Forall (fun r => length r = 19%nat) rows
       /\ human_scores bertscores
          = Ok (map (fun r => Np.sum (map (fun j => nth j r 0) (seq 0 15))) rows)
       /\ nonhuman_scores bertscores
          = Ok (map (fun r => Np.sum (map (fun j => nth j r 0) (seq 15 4))) rows).
Proof.
  intros Hne Hrun.
  split; [reflexivity |]. split; [reflexivity |]. split; [reflexivity |].
  rewrite get_anthroscore_stack in Hrun by exact Hne.
  bind_inv_as Hrun vs Hvs. injection Hrun as <-.
  exists (np_empty uninit 0 (length terms)), vs.
  pose proof (predict_from_widths _ _ _ _ _ _ _ Hvs) as Hw.
  split; [reflexivity |].
  split; [eapply predict_from_length; eassumption |].
  split; [exact Hw |].
  unfold human_scores, nonhuman_scores. cbn [skipn].
  rewrite Forall_forall in Hw.
  split; f_equal; apply map_ext_in; intros r Hr;
    apply (split_sums r (Hw r Hr)).
Qed.

Lemma C1_pronoun_list_witness :
  length terms = 19%nat
  /\ skipn 15 terms = ["it"; "its"; "It"; "Its"]%string.
Proof.
  assert (Hrun : get_anthroscore ScorerSamples.tokenizer ScorerSamples.model
                   ScorerSamples.softmax ScorerSamples.uninit [ScorerSamples.masked]
                 = Ok (Np.Arr2 [np_empty ScorerSamples.uninit 0 (length terms);
                                ScorerSamples.softmax (repeat 0 19)]))
    by reflexivity.
  destruct (C1_pronoun_list_is_15_plus_4 _ _ _ _ [ScorerSamples.masked] _
              ltac:(discriminate) Hrun) as (H19 & _ & H4 & _).
  split; assumption.
Defined.

(** C1 as worded fails: the list does not have 18 tokens, and what follows
    the first fifteen is not 3 tokens. *)
Lemma C1_list_is_not_15_plus_3 :
  length terms <> 18%nat /\ length (skipn 15 terms) <> 3%nat.
Proof.
  split; discriminate.
Qed.




End Aggregation.

(** ** The output path *)

Section OutputPath.

Import Extractor Main.

Local Open Scope string_scope.

Lemma parse_args_output (cl : CommandLine) (args : Args) :
  parse_args cl = Ok args ->
  output_file args = Some (with_default "" (cl_output_file cl))
  /\ input_file args = cl_input_file cl.
Proof.
  unfold parse_args. intros H.
  destruct (entity_options_conflict cl || entities_lack_values cl);
    [discriminate H |].
  injection H as <-. split; reflexivity.
Qed.

Lemma main_paths_Ok (args : Args) (inp out : string) :
  main_paths args = Ok (inp, out) ->
  input_file args = Some inp
  /\ Py.last4 inp = ".csv" /\ Py.last4 out = ".csv"
  /\ (output_file args = Some out
      \/ output_file args = None /\ out = Py.split_dot_0 inp ++ "_parsed.csv").
Proof.
  unfold main_paths. intros H.
  bind_inv_as H o Ho. bind_inv_as H i Hi.
  bind_inv_as H u1 H1. bind_inv_as H u2 H2.
  injection H as <- <-.
  unfold py_assert in H1, H2.
  destruct (String.eqb (Py.last4 i) ".csv") eqn:E1; [| discriminate H1].
  destruct (String.eqb (Py.last4 o) ".csv") eqn:E2; [| discriminate H2].
  apply String.eqb_eq in E1, E2.
  destruct (input_file args) as [i' |]; [| discriminate Hi].
  injection Hi as ->.
  split; [reflexivity |]. split; [exact E1 |]. split; [exact E2 |].
  destruct (output_file args) as [o' |].
  - left. injection Ho as ->. reflexivity.
  - right. injection Ho as <-. split; reflexivity.
Qed.

(** With the empty string as output path the checks of lines 124 to 129
    fail: on the output assertion when the input path is a [.csv] path. *)
Lemma main_paths_empty_output (args : Args) :
  output_file args = Some "" ->
  exists e, main_paths args = Raise e
            /\ (forall i, input_file args = Some i -> e = AssertionError).
Proof.
  intros Ho. unfold main_paths. rewrite Ho. cbn [bind].
  destruct (input_file args) as [i |].
  - cbn [bind]. unfold py_assert.
    destruct (String.eqb (Py.last4 i) ".csv").
    + exists AssertionError. split; [reflexivity | intros; reflexivity].
    + exists AssertionError. split; [reflexivity | intros; reflexivity].
  - exists TypeError. split; [reflexivity |]. intros i Hi. discriminate Hi.
Qed.

(** C10: [--output_file] defaults to the empty string, never to [None], so
    the branch that would derive a path from the input file is not taken.
    When the option is left out the run ends with an exception before it
    reads any file or calls the parser or the model (the exception is the
    same whatever these would do), and it is the assertion error whenever
    the command line parses and names an input file.  Every run that
    completes was given an output path ending in [.csv]. *)
Theorem C10_output_file_is_required (cl : CommandLine) :
  (forall args, parse_args cl = Ok args -> output_file args <> None)
  /\ (cl_output_file cl = None ->
      exists e,
        (forall read_csv read_lines nlp re_other tokenizer model softmax uninit np_log reload,
            main read_csv read_lines nlp re_other tokenizer model softmax uninit np_log reload cl
            = Raise e)
        /\ (forall args i,
              parse_args cl = Ok args -> input_file args = Some i ->
              e = AssertionError /\ main_paths args = Raise AssertionError))
  /\ (forall read_csv read_lines nlp re_other tokenizer model softmax uninit np_log reload out,
        main read_csv read_lines nlp re_other tokenizer model softmax uninit np_log reload cl
        = Ok out ->
        exists o, cl_output_file cl = Some o /\ Py.last4 o = ".csv").
Proof.
  split.
  { intros args Ha. apply parse_args_output in Ha. destruct Ha as [Ho _].
    rewrite Ho. discriminate. }
  split.
  { intros Hnone. unfold main.
    destruct (parse_args cl) as [args | x] eqn:Ha.
    - destruct (parse_args_output _ _ Ha) as [Ho Hi].
      rewrite Hnone in Ho. cbn [with_default] in Ho.
      destruct (main_paths_empty_output _ Ho) as [e [He Hass]].
      exists e. split.
      + intros. cbn [bind]. rewrite He. reflexivity.
      + intros args' i Hargs Hin. injection Hargs as <-.
        rewrite (Hass i Hin) in He. split; [apply (Hass i Hin) | exact He].
    - exists x. split.
      + intros. reflexivity.
      + intros args i Hargs. discriminate Hargs. }
  intros read_csv read_lines nlp re_other tokenizer model softmax uninit np_log reload out H.
  unfold main in H.
  bind_inv_as H args Ha. bind_inv_as H paths Hp.
  destruct paths as [inp o].
  apply main_paths_Ok in Hp. destruct Hp as (_ & _ & Hcsv & Hout).
  apply parse_args_output in Ha. destruct Ha as [Ho _].
  destruct Hout as [Hsome | [Hnone _]]; [| congruence].
  rewrite Ho in Hsome. injection Hsome as Hd.
  destruct (cl_output_file cl) as [given |].
  - exists given. cbn [with_default] in Hd. subst o. split; [reflexivity | exact Hcsv].
  - cbn [with_default] in Hd. subst o. vm_compute in Hcsv. discriminate Hcsv.
Qed.

Lemma C10_output_file_witness :
  exists e,
    (forall read_csv read_lines nlp re_other tokenizer model softmax uninit np_log reload,
        main read_csv read_lines nlp re_other tokenizer model softmax uninit np_log reload
          Samples.no_output
        = Raise e)
    /\ e = AssertionError.
Proof.
  destruct (C10_output_file_is_required Samples.no_output) as [_ [H _]].
  destruct (H eq_refl) as [e [Hrun Hass]].
  exists e. split; [exact Hrun |].
  apply (Hass _ "example/acl_50.csv" eq_refl eq_refl).
Defined.

End OutputPath.

(** * Further properties of the extractor *)

Lemma mapM_app (A B : Type) (f : A -> result B) (l1 l2 : list A) :
  mapM f (l1 ++ l2)
  = (b1 <- mapM f l1 ;; b2 <- mapM f l2 ;; Ok (b1 ++ b2))%py.
Proof.
  induction l1 as [| a l1 IH]; simpl.
  - destruct (mapM f l2); reflexivity.
  - destruct (f a) as [b | e]; [| reflexivity]. cbn [bind].
    rewrite IH. destruct (mapM f l1) as [b1 | e]; [| reflexivity]. cbn [bind].
    destruct (mapM f l2); reflexivity.
Qed.

(** A loop whose first item raises raises the same exception. *)
Lemma mapM_head_Raise (A B : Type) (f : A -> result B) (a : A) (l : list A)
    (e : exn) :
  f a = Raise e -> mapM f (a :: l) = Raise e.
Proof. intros H. simpl. rewrite H. reflexivity. Qed.

Lemma column_index_None (name : string) (cols : list string) :
  Extractor.column_index name cols = None <-> ~ In name cols.
Proof.
  induction cols as [| c cols IH]; simpl.
  - split; [intros _ [] | reflexivity].
  - destruct (String.eqb c name) eqn:E.
    + apply String.eqb_eq in E. split; [discriminate | intros H; contradiction H; auto].
    + apply String.eqb_neq in E. split.
      * intros H [Hc | Hin]; [contradiction |].
        destruct (Extractor.column_index name cols); [discriminate H |].
        apply (proj1 IH); [reflexivity | exact Hin].
      * intros H. destruct (Extractor.column_index name cols) eqn:Ei;
          [| reflexivity].
        exfalso. apply H. right.
        destruct (in_dec string_dec name cols) as [Hin | Hn]; [exact Hin |].
        apply (proj2 IH) in Hn. discriminate Hn.
Qed.

Lemma column_index_Some (name : string) (cols : list string) (i : nat) :
  Extractor.column_index name cols = Some i -> i < length cols.
Proof.
  revert i. induction cols as [| c cols IH]; simpl; intros i H.
  - discriminate H.
  - destruct (String.eqb c name).
    + injection H as <-. lia.
    + destruct (Extractor.column_index name cols) as [j |]; [| discriminate H].
      injection H as <-. specialize (IH j eq_refl). lia.
Qed.

Section Frames.

Import Extractor ExtractorSpec.

Local Open Scope string_scope.

Variable nlp : string -> result Doc.
Variable re_other : string -> string -> result bool.

Lemma table_and_entities_nonempty
    (read_csv : string -> result DataFrame)
    (input : string) (entities : list string) (tcol idcol : string)
    (table : list SentenceMatch) :
  parse_sentences_from_file read_csv nlp re_other input entities tcol idcol
  = Ok table ->
  table <> [] /\ entities <> [].
Proof.
  intros Hrun.
  assert (Hne : table <> []).
  { unfold parse_sentences_from_file in Hrun.
    bind_inv_as Hrun raw Hraw. bind_inv_as Hrun df Hdf.
    bind_inv_as Hrun rows Hrows.
    destruct (concat rows); [discriminate Hrun |].
    injection Hrun as <-. discriminate. }
  split; [exact Hne |].
  destruct table as [| row table']; [contradiction Hne; reflexivity |].
  destruct (original_term_of_row _ _ _ _ _ _ _ _ row Hrun (or_introl eq_refl))
    as [e [He _]].
  intros E. rewrite E in He. contradiction He.
Qed.



(** X2: A text column that the input file does not have ends the run with a
    [KeyError], whatever the rows hold. *)
Theorem missing_text_column_is_key_error
    (read_csv : string -> result DataFrame)
    (input : string) (entities : list string) (tcol idcol : string)
    (raw : DataFrame) :
  read_csv input = Ok raw ->
  ~ In tcol (df_columns raw) ->
  parse_sentences_from_file read_csv nlp re_other input entities tcol idcol
  = Raise KeyError.
Proof.
  intros Hraw Hcol. unfold parse_sentences_from_file.
  rewrite Hraw. cbn [bind]. unfold dropna.
  apply column_index_None in Hcol. rewrite Hcol. reflexivity.
Qed.

(** X3: A misnamed identifier column is only noticed when a row is processed:
    the run ends with a [KeyError] at the first row that has a text, and
    with the [ValueError] of the empty table when no row has one. *)
Theorem missing_id_column
    (read_csv : string -> result DataFrame)
    (input : string) (entities : list string) (tcol idcol : string)
    (raw : DataFrame) :
  read_csv input = Ok raw ->
  In tcol (df_columns raw) ->
  Forall (fun k => length k = length (df_columns raw)) (df_rows raw) ->
  0 < String.length idcol ->
  ~ In idcol (df_columns raw) ->
  parse_sentences_from_file read_csv nlp re_other input entities tcol idcol
  = Raise (if forallb (fun k => match row_get (df_columns raw) k tcol with
                                | Ok c => is_nan c
                                | Raise _ => true
                                end) (df_rows raw)
           then ValueError else KeyError).
Proof.
  intros Hraw Htcol Hwidth Hid Hnot. unfold parse_sentences_from_file.
  rewrite Hraw. cbn [bind]. unfold dropna.
  destruct (column_index tcol (df_columns raw)) as [i |] eqn:Hi.
  2:{ apply column_index_None in Hi. contradiction. }
  cbn [bind df_columns df_rows].
  pose proof (column_index_Some _ _ _ Hi) as Hlt.
  induction Hwidth as [| k rows Hk _ IH].
  - reflexivity.
  - cbn [filter forallb].
    assert (Hget : exists c, nth_error k i = Some c /\ nth i k NaN = c).
    { destruct (nth_error k i) as [c |] eqn:E.
      - exists c. split; [reflexivity |]. apply nth_error_nth. exact E.
      - apply nth_error_None in E. lia. }
    destruct Hget as [c [Hc Hn]].
    assert (Hrg : row_get (df_columns raw) k tcol = Ok c)
      by (unfold row_get; rewrite Hi, Hc; reflexivity).
    rewrite Hrg, Hn.
    destruct (is_nan c) eqn:Hnan; cbn [negb andb].
    + exact IH.
    + rewrite mapM_head_Raise with (e := KeyError); [reflexivity |].
      unfold scan_row. rewrite Hrg. cbn [bind]. unfold text_id_of.
      apply Nat.ltb_lt in Hid. rewrite Hid. unfold row_get.
      apply column_index_None in Hnot. rewrite Hnot. reflexivity.
Qed.

Lemma dropna_rows (raw df : DataFrame) (tcol : string) :
  dropna raw tcol = Ok df ->
  df_columns df = df_columns raw
  /\ exists i, column_index tcol (df_columns raw) = Some i
               /\ df_rows df
                  = filter (fun k => negb (is_nan (nth i k NaN))) (df_rows raw).
Proof.
  unfold dropna. intros H.
  destruct (column_index tcol (df_columns raw)) as [i |]; [| discriminate H].
  injection H as <-. split; [reflexivity |]. exists i. split; reflexivity.
Qed.

(** X4: The identifier recorded with a row: the name of the input file when no
    identifier column is given, and otherwise the identifier cell of the
    input row whose text the sentence was parsed from. *)
Theorem text_id_of_emitted_row
    (read_csv : string -> result DataFrame)
    (input : string) (entities : list string) (tcol idcol : string)
    (table : list SentenceMatch) (row : SentenceMatch) :
  parse_sentences_from_file read_csv nlp re_other input entities tcol idcol
  = Ok table ->
  In row table ->
  (String.length idcol = 0 -> text_id row = Str input)
  /\ (0 < String.length idcol ->
      exists raw k t doc sent,
        read_csv input = Ok raw
        /\ In k (df_rows raw)
        /\ row_get (df_columns raw) k idcol = Ok (text_id row)
        /\ row_get (df_columns raw) k tcol = Ok (Str t)
        /\ nlp t = Ok doc /\ In sent doc
        /\ sentence row = sent_text sent).
Proof.
  intros Hrun Hrow.
  apply (parse_sentences_In _ _ _ _ _ _ _ _ row Hrun) in Hrow.
  destruct Hrow as [tid [sent [chunk [Hp Hr]]]].
  unfold chunk_rows in Hr.
  destruct (is_subject_or_object chunk); [| contradiction].
  apply in_map_iff in Hr. destruct Hr as [p [<- _]].
  cbn [text_id sentence make_row].
  destruct Hp as [raw df k t tid doc sent chunk H1 H2 H3 H4 H5 H6 H7 H8 H9].
  destruct (dropna_rows _ _ _ H2) as [Hcols [i [_ Hrows]]].
  rewrite Hcols in *. unfold text_id_of in H5. split.
  - intros Hz. rewrite Hz in H5. cbn in H5. injection H5 as <-. reflexivity.
  - intros Hpos. apply Nat.ltb_lt in Hpos. rewrite Hpos in H5.
    exists raw, k, t, doc, sent. repeat split; try assumption.
    rewrite Hrows in H3. apply filter_In in H3. apply H3.
Qed.

(** X5: Rows whose text is missing are dropped before anything else: the run
    ends as if the row were not in the file. *)
Theorem row_without_text_is_skipped
    (read1 read2 : string -> result DataFrame)
    (input : string) (entities : list string) (tcol idcol : string)
    (cols : list string) (before after : list (list cell)) (k : list cell) :
  read1 input = Ok {| df_columns := cols; df_rows := before ++ k :: after |} ->
  read2 input = Ok {| df_columns := cols; df_rows := before ++ after |} ->
  row_get cols k tcol = Ok NaN ->
  parse_sentences_from_file read1 nlp re_other input entities tcol idcol
  = parse_sentences_from_file read2 nlp re_other input entities tcol idcol.
Proof.
  intros H1 H2 Hk. unfold parse_sentences_from_file.
  rewrite H1, H2. cbn [bind]. unfold dropna. cbn [df_columns df_rows].
  unfold row_get in Hk.
  destruct (column_index tcol cols) as [i |]; [| reflexivity].
  destruct (nth_error k i) as [c |] eqn:Hc; [| discriminate Hk].
  injection Hk as ->.
  rewrite !filter_app. cbn [filter].
  rewrite (nth_error_nth _ _ NaN Hc). reflexivity.
Qed.

(** X8: The rows of the input are processed one after the other and their
    matches are appended: the table of a file is the table of its first
    rows followed by the table of the remaining rows.  Nothing is merged or
    removed, so a repeated input row gives its rows again. *)
Theorem extractor_appends_tables
    (readA readB readAB : string -> result DataFrame)
    (input : string) (entities : list string) (tcol idcol : string)
    (cols : list string) (ra rb : list (list cell))
    (ta tb : list SentenceMatch) :
  readA input = Ok {| df_columns := cols; df_rows := ra |} ->
  readB input = Ok {| df_columns := cols; df_rows := rb |} ->
  readAB input = Ok {| df_columns := cols; df_rows := ra ++ rb |} ->
  parse_sentences_from_file readA nlp re_other input entities tcol idcol
  = Ok ta ->
  parse_sentences_from_file readB nlp re_other input entities tcol idcol
  = Ok tb ->
  parse_sentences_from_file readAB nlp re_other input entities tcol idcol
  = Ok (ta ++ tb)%list.
Proof.
  intros HA HB HAB. unfold parse_sentences_from_file.
  rewrite HA, HB, HAB. cbn [bind]. unfold dropna. cbn [df_columns df_rows].
  destruct (column_index tcol cols) as [i |]; [| discriminate].
  cbn [bind df_columns df_rows].
  rewrite filter_app, mapM_app.
  intros Ha Hb.
  bind_inv_as Ha rowsA HrA. bind_inv_as Hb rowsB HrB.
  rewrite HrA, HrB. cbn [bind]. rewrite concat_app.
  destruct (concat rowsA) as [| x xs]; [discriminate Ha |].
  destruct (concat rowsB) as [| y ys]; [discriminate Hb |].
  injection Ha as <-. injection Hb as <-. reflexivity.
Qed.

End Frames.

Section FramesWitnesses.

Import Extractor.

Local Open Scope string_scope.


Lemma missing_text_column_witness :
  parse_sentences_from_file Samples.read_csv Samples.nlp Samples.re_other
    "in.csv" ["model"] "text" "" = Raise KeyError.
Proof.
  apply (missing_text_column_is_key_error Samples.nlp Samples.re_other
           Samples.read_csv "in.csv" ["model"] "text" "" Samples.frame).
  - reflexivity.
  - vm_compute. intros [H | [H | []]]; discriminate H.
Defined.

Lemma missing_id_column_witness :
  parse_sentences_from_file Samples.read_csv Samples.nlp Samples.re_other
    "in.csv" ["model"] "abstract" "paper_id" = Raise KeyError.
Proof.
  apply (missing_id_column Samples.nlp Samples.re_other
           Samples.read_csv "in.csv" ["model"] "abstract" "paper_id"
           Samples.frame).
  - reflexivity.
  - vm_compute. right. left. reflexivity.
  - vm_compute. repeat constructor.
  - vm_compute. lia.
  - vm_compute. intros [H | [H | []]]; discriminate H.
Defined.

Lemma text_id_of_emitted_row_witness :
  text_id (nth 0 Samples.model_rows Samples.bot_row) = Str "in.csv".
Proof.
  apply (text_id_of_emitted_row Samples.nlp Samples.re_other
           Samples.read_csv "in.csv" ["model"] "abstract" ""
           Samples.model_rows).
  - vm_compute. reflexivity.
  - left. reflexivity.
  - reflexivity.
Defined.

Lemma row_without_text_witness :
  parse_sentences_from_file Samples.read_csv Samples.nlp Samples.re_other
    "in.csv" ["model"] "abstract" "acl_id"
  = parse_sentences_from_file MoreSamples.read_no_nan Samples.nlp
      Samples.re_other "in.csv" ["model"] "abstract" "acl_id".
Proof.
  apply (row_without_text_is_skipped Samples.nlp Samples.re_other
           Samples.read_csv MoreSamples.read_no_nan
           "in.csv" ["model"] "abstract" "acl_id"
           ["acl_id"; "abstract"]
           [[Str "P1"; Str Samples.bot_text]]
           [[Str "P3"; Str Samples.model_text]]
           [Str "P2"; NaN]).
  - reflexivity.
  - reflexivity.
  - reflexivity.
Defined.

Lemma extractor_appends_tables_witness :
  parse_sentences_from_file Samples.read_csv Samples.nlp Samples.re_other
    "in.csv" ["bot"; "model"] "abstract" "acl_id"
  = Ok ([Samples.bot_row]
        ++ [make_row Samples.model_sentence Samples.model_subject (Str "P3")
              (pattern_of "model");
            make_row Samples.model_sentence Samples.model_object (Str "P3")
              (pattern_of "model")])%list.
Proof.
  apply (extractor_appends_tables Samples.nlp Samples.re_other
           MoreSamples.read_head MoreSamples.read_tail Samples.read_csv
           "in.csv" ["bot"; "model"] "abstract" "acl_id"
           ["acl_id"; "abstract"]
           [[Str "P1"; Str Samples.bot_text]; [Str "P2"; NaN]]
           [[Str "P3"; Str Samples.model_text]]).
  - reflexivity.
  - reflexivity.
  - reflexivity.
  - vm_compute. reflexivity.
  - vm_compute. reflexivity.
Defined.

End FramesWitnesses.

(** * Further properties of the strings the extractor records *)

Section Lowercase.

Import Extractor ExtractorSpec MoreSpec.

Lemma lower_char_not_upper (c : ascii) : is_upper (Py.lower_char c) = false.
Proof. destruct c as [[] [] [] [] [] [] [] []]; reflexivity. Qed.

Lemma lower_char_is_word (c : ascii) :
  Re.is_word (Py.lower_char c) = Re.is_word c.
Proof. destruct c as [[] [] [] [] [] [] [] []]; reflexivity. Qed.

Lemma lower_has_no_upper (s : string) :
  existsb is_upper (Py.chars (Py.lower s)) = false.
Proof.
  unfold Py.lower. rewrite chars_str.
  induction (Py.chars s) as [| c l IH]; simpl.
  - reflexivity.
  - rewrite lower_char_not_upper, IH. reflexivity.
Qed.

(** X9: The noun phrase and the verb are recorded in lower case: neither holds
    a capital letter, whatever the parser returned. *)
Theorem noun_and_verb_are_lowercased
    (read_csv : string -> result DataFrame) (nlp : string -> result Doc)
    (re_other : string -> string -> result bool)
    (input : string) (entities : list string) (tcol idcol : string)
    (table : list SentenceMatch) (row : SentenceMatch) :
  parse_sentences_from_file read_csv nlp re_other input entities tcol idcol
  = Ok table ->
  In row table ->
  existsb is_upper (Py.chars (original_noun row)) = false
  /\ existsb is_upper (Py.chars (verb row)) = false.
Proof.
  intros Hrun Hrow.
  apply (parse_sentences_In _ _ _ _ _ _ _ _ row Hrun) in Hrow.
  destruct Hrow as [tid [sent [chunk [_ Hr]]]].
  unfold chunk_rows in Hr.
  destruct (is_subject_or_object chunk); [| contradiction].
  apply in_map_iff in Hr. destruct Hr as [p [<- _]].
  cbn [original_noun verb make_row]. split; apply lower_has_no_upper.
Qed.

End Lowercase.

Section StripMore.

Variable A : Type.
Variable set : A -> bool.

Lemma lstrip_all (l : list A) : forallb set l = true -> Py.lstrip set l = [].
Proof.
  induction l as [| c l IH]; simpl; intros H.
  - reflexivity.
  - apply andb_prop in H. destruct H as [Hc Hl]. rewrite Hc. auto.
Qed.

Lemma lstrip_app (e q : list A) :
  Py.lstrip set (e ++ q)
  = if forallb set e then Py.lstrip set q else Py.lstrip set e ++ q.
Proof.
  induction e as [| c e IH]; simpl.
  - reflexivity.
  - destruct (set c); [exact IH | reflexivity].
Qed.

Lemma lstrip_decompose (l : list A) :
  exists p, l = p ++ Py.lstrip set l /\ forallb set p = true.
Proof.
  induction l as [| c l [p [Hp Hs]]]; simpl.
  - exists []. auto.
  - destruct (set c) eqn:E.
    + exists (c :: p). simpl. rewrite E, Hs. split; [f_equal; exact Hp | reflexivity].
    + exists []. auto.
Qed.

Lemma forallb_rev_iff (l : list A) : forallb set (rev l) = forallb set l.
Proof.
  apply eq_true_iff_eq. rewrite !forallb_forall. split; intros H x Hx; apply H.
  - apply in_rev in Hx. exact Hx.
  - apply in_rev. exact Hx.
Qed.

(** Characters of the set around a text do not change what stripping
    leaves of it. *)
Lemma strip_wrapped_any (p q e : list A) :
  forallb set p = true -> forallb set q = true ->
  Py.strip set (p ++ e ++ q) = Py.strip set e.
Proof.
  intros Hp Hq. unfold Py.strip, Py.rstrip.
  rewrite lstrip_app_all by exact Hp. rewrite lstrip_app.
  destruct (forallb set e) eqn:He.
  - rewrite (lstrip_all q Hq), (lstrip_all e He). reflexivity.
  - rewrite rev_app_distr, lstrip_app_all; [reflexivity |].
    rewrite forallb_rev_iff. exact Hq.
Qed.

(** Stripping removes characters of the set from the two ends, and only
    those. *)
Lemma strip_decompose (l : list A) :
  exists p q, l = p ++ Py.strip set l ++ q
              /\ forallb set p = true /\ forallb set q = true.
Proof.
  destruct (lstrip_decompose l) as [p [Hp Hps]].
  destruct (lstrip_decompose (rev (Py.lstrip set l))) as [q [Hq Hqs]].
  exists p, (rev q). unfold Py.strip, Py.rstrip. split.
  - rewrite Hp at 1. f_equal.
    rewrite <- (rev_involutive (Py.lstrip set l)) at 1.
    rewrite Hq at 1. rewrite rev_app_distr. reflexivity.
  - split; [exact Hps |]. rewrite forallb_rev_iff. exact Hqs.
Qed.

(** What stripping leaves neither starts nor ends with a character of the
    set. *)
Lemma lstrip_head (l : list A) (c : A) :
  hd_error (Py.lstrip set l) = Some c -> set c = false.
Proof.
  induction l as [| x l IH]; simpl; intros H.
  - discriminate H.
  - destruct (set x) eqn:E; [auto |]. injection H as <-. exact E.
Qed.

End StripMore.

Section RecordedTermMore.

Import Extractor ExtractorSpec MoreSpec.

Local Open Scope string_scope.

Lemma strip_pattern_any (e : string) :
  Py.str_strip (pattern_of e) "\b" = Py.str_strip e "\b".
Proof.
  unfold Py.str_strip. rewrite chars_pattern_of.
  rewrite strip_wrapped_any; reflexivity.
Qed.

(** X10: The recorded term is the entity without the backslashes and the letters
    [b] at its two ends: entity = removed prefix, recorded term, removed
    suffix, where the removed parts hold only those two characters.  So
    "bot" is recorded as "ot", "lamb" as "lam", and "system" as it is. *)
Theorem original_term_is_stripped_entity
    (read_csv : string -> result DataFrame) (nlp : string -> result Doc)
    (re_other : string -> string -> result bool)
    (input : string) (entities : list string) (tcol idcol : string)
    (table : list SentenceMatch) (row : SentenceMatch) :
  parse_sentences_from_file read_csv nlp re_other input entities tcol idcol
  = Ok table ->
  In row table ->
  exists e p q,
    In e entities
    /\ original_term row = Py.str_strip e "\b"
    /\ Py.chars e = (p ++ Py.chars (original_term row) ++ q)%list
    /\ forallb boundary_chars p = true
    /\ forallb boundary_chars q = true
    /\ (forall c, hd_error (Py.chars (original_term row)) = Some c ->
                  boundary_chars c = false).
Proof.
  intros Hrun Hrow.
  destruct (original_term_of_row _ _ _ _ _ _ _ _ row Hrun Hrow) as [e [He Ht]].
  rewrite strip_pattern_any in Ht.
  destruct (strip_decompose _ boundary_chars (Py.chars e)) as [p [q [Hd [Hp Hq]]]].
  exists e, p, q. split; [exact He |]. split; [exact Ht |].
  rewrite Ht. unfold Py.str_strip. rewrite chars_str.
  split; [exact Hd |]. split; [exact Hp |]. split; [exact Hq |].
  intros c Hc. unfold Py.strip, Py.rstrip in Hc.
  fold boundary_chars in Hc.
  destruct (lstrip_decompose _ boundary_chars
              (rev (Py.lstrip boundary_chars (Py.chars e)))) as [s [Hs Hss]].
  set (m := Py.lstrip boundary_chars
              (rev (Py.lstrip boundary_chars (Py.chars e)))) in *.
  assert (Hm : Py.lstrip boundary_chars (Py.chars e) = (rev m ++ rev s)%list).
  { rewrite <- (rev_involutive (Py.lstrip boundary_chars (Py.chars e))).
    rewrite Hs. apply rev_app_distr. }
  destruct (rev m) as [| c' r] eqn:Er; [discriminate Hc |].
  injection Hc as ->.
  apply (lstrip_head _ boundary_chars (Py.chars e)).
  rewrite Hm. reflexivity.
Qed.

End RecordedTermMore.

Section RecordedTermWitnesses.

Import Extractor MoreSpec.

Local Open Scope string_scope.

Lemma noun_and_verb_witness :
  existsb is_upper (Py.chars (original_noun Samples.bot_row)) = false
  /\ existsb is_upper (Py.chars (verb Samples.bot_row)) = false.
Proof.
  apply (noun_and_verb_are_lowercased Samples.read_csv Samples.nlp
           Samples.re_other "in.csv" ["bot"] "abstract" "acl_id"
           [Samples.bot_row]).
  - vm_compute. reflexivity.
  - left. reflexivity.
Defined.

Lemma original_term_witness :
  exists e p q,
    In e ["bot"]
    /\ original_term Samples.bot_row = Py.str_strip e "\b"
    /\ Py.chars e = (p ++ Py.chars (original_term Samples.bot_row) ++ q)%list
    /\ forallb boundary_chars p = true
    /\ forallb boundary_chars q = true
    /\ (forall c, hd_error (Py.chars (original_term Samples.bot_row)) = Some c ->
                  boundary_chars c = false).
Proof.
  apply (original_term_is_stripped_entity Samples.read_csv Samples.nlp
           Samples.re_other "in.csv" ["bot"] "abstract" "acl_id"
           [Samples.bot_row]).
  - vm_compute. reflexivity.
  - left. reflexivity.
Defined.

End RecordedTermWitnesses.

(** * Further properties of masking and matching *)

Section FindFacts.




End FindFacts.

Section MaskPresent.

Import Extractor ExtractorSpec MoreSpec.

Local Open Scope string_scope.



End MaskPresent.

Section CaseAndEmptyEntities.

Import Extractor ExtractorSpec MoreSpec.

Local Open Scope string_scope.

Lemma startswith_In (e l : list ascii) (c : ascii) :
  Py.startswith Ascii.eqb e l = true -> In c e -> In c l.
Proof.
  intros Hs Hin. apply In_nth_error in Hin. destruct Hin as [j Hj].
  apply (nth_error_In l j). apply (startswith_nth _ _ Hs j c Hj).
Qed.

Lemma In_skipn (A : Type) (x : A) (n : nat) (l : list A) :
  In x (skipn n l) -> In x l.
Proof.
  intros H. rewrite <- (firstn_skipn n l). apply in_or_app. right. exact H.
Qed.

(** X12: The entity list is case-sensitive and the text is lowercased first, so
    an entity with a capital letter in it can never match: it contributes
    no row, for any noun chunk. *)
Theorem capitalised_entity_never_matches
    (re_other : string -> string -> result bool)
    (e : string) (sent : Sentence) (tid : cell) (chunk : NounChunk) :
  literal (Py.chars e) ->
  existsb is_upper (Py.chars e) = true ->
  Re.findall_nonempty re_other (pattern_of e) (Py.lower (nc_text chunk))
  = Ok false
  /\ scan_chunk re_other sent tid (pattern_list [e]) chunk = Ok [].
Proof.
  intros Hlit Hup.
  assert (Hf : Re.findall_nonempty re_other (pattern_of e)
                 (Py.lower (nc_text chunk)) = Ok false).
  { rewrite findall_literal by exact Hlit. f_equal.
    destruct (Re.word_search (Py.chars e)
                (Py.chars (Py.lower (nc_text chunk)))) eqn:E; [| reflexivity].
    exfalso. unfold Re.word_search in E. apply existsb_exists in E.
    destruct E as [i [_ Hm]]. unfold Re.match_at in Hm.
    apply andb_prop in Hm. destruct Hm as [Hm _].
    apply andb_prop in Hm. destruct Hm as [Hs _].
    apply existsb_exists in Hup. destruct Hup as [c [Hc Hcu]].
    assert (Hin : In c (Py.chars (Py.lower (nc_text chunk)))).
    { apply (In_skipn _ c i). apply (startswith_In _ _ c Hs Hc). }
    pose proof (lower_has_no_upper (nc_text chunk)) as Hno.
    assert (Hex : existsb is_upper (Py.chars (Py.lower (nc_text chunk))) = true).
    { apply existsb_exists. exists c. auto. }
    congruence. }
  split; [exact Hf |].
  unfold scan_chunk. destruct (is_subject_or_object chunk); [| reflexivity].
  cbn [pattern_list map scan_patterns]. rewrite Hf. reflexivity.
Qed.

Lemma capitalised_entity_witness :
  Re.findall_nonempty Samples.re_other (pattern_of "Bot")
    (Py.lower (nc_text Samples.bot_chunk)) = Ok false
  /\ scan_chunk Samples.re_other Samples.bot_sentence (Str "P1")
       (pattern_list ["Bot"]) Samples.bot_chunk = Ok [].
Proof.
  apply (capitalised_entity_never_matches Samples.re_other "Bot").
  - vm_compute. reflexivity.
  - vm_compute. reflexivity.
Defined.

End CaseAndEmptyEntities.

Section EmptyEntity.

Import Extractor ExtractorSpec MoreSpec.

Local Open Scope string_scope.

Lemma word_at_cons (c : ascii) (t : list ascii) (i : nat) :
  Re.word_at (c :: t) (S (S i)) = Re.word_at t (S i).
Proof. reflexivity. Qed.

(** A text with a word character has a word boundary. *)
Lemma boundary_exists (text : list ascii) :
  existsb Re.is_word text = true ->
  exists i, i <= length text /\ Re.boundary text i = true.
Proof.
  induction text as [| c t IH]; simpl; intros H.
  - discriminate H.
  - destruct (Re.is_word c) eqn:Ec.
    + exists 0. split; [lia |]. unfold Re.boundary. simpl. rewrite Ec. reflexivity.
    + simpl in H. destruct (IH H) as [i [Hi Hb]].
      exists (S i). split; [lia |].
      unfold Re.boundary in *. rewrite word_at_cons.
      destruct i as [| i].
      * cbn [Re.word_at nth_error] in *. rewrite Ec. exact Hb.
      * rewrite word_at_cons. exact Hb.
Qed.

Lemma word_at_true (text : list ascii) (i : nat) :
  Re.word_at text i = true -> existsb Re.is_word text = true.
Proof.
  destruct i as [| j]; simpl; [discriminate |].
  destruct (nth_error text j) as [c |] eqn:E; [| discriminate].
  intros Hc. apply existsb_exists. exists c. split; [| exact Hc].
  apply (nth_error_In _ _ E).
Qed.

Lemma word_search_empty (text : list ascii) :
  Re.word_search [] text = existsb Re.is_word text.
Proof.
  apply eq_true_iff_eq. unfold Re.word_search. rewrite existsb_exists. split.
  - intros [i [_ Hm]]. unfold Re.match_at in Hm.
    apply andb_prop in Hm. destruct Hm as [Hm _].
    apply andb_prop in Hm. destruct Hm as [_ Hb].
    unfold Re.boundary in Hb.
    destruct (Re.word_at text i) eqn:E1.
    + apply (word_at_true _ _ E1).
    + destruct (Re.word_at text (S i)) eqn:E2; [| discriminate Hb].
      apply (word_at_true _ _ E2).
  - intros H. destruct (boundary_exists _ H) as [i [Hi Hb]].
    exists i. split; [apply in_seq; lia |].
    unfold Re.match_at. cbn [Py.startswith length andb].
    rewrite Nat.add_0_r, Hb. reflexivity.
Qed.

(** X13: An empty entity, which is what a blank line of the entity file gives,
    matches every ASCII text that has a letter, a digit or an underscore,
    and no other ASCII text: every subject or object noun chunk with an
    ASCII text that holds such a character yields a row for it, with the
    empty string as recorded term. *)
Theorem empty_entity_matches_every_word
    (re_other : string -> string -> result bool)
    (sent : Sentence) (tid : cell) (chunk : NounChunk) :
  is_ascii (Py.chars (nc_text chunk)) ->
  Re.findall_nonempty re_other (pattern_of "") (Py.lower (nc_text chunk))
  = Ok (existsb Re.is_word (Py.chars (nc_text chunk)))
  /\ (is_subject_or_object chunk = true ->
      existsb Re.is_word (Py.chars (nc_text chunk)) = true ->
      scan_chunk re_other sent tid (pattern_list [""]) chunk
      = Ok [make_row sent chunk tid (pattern_of "")]
      /\ original_term (make_row sent chunk tid (pattern_of "")) = "").
Proof.
  intros _.
  assert (Hf : Re.findall_nonempty re_other (pattern_of "")
                 (Py.lower (nc_text chunk))
               = Ok (existsb Re.is_word (Py.chars (nc_text chunk)))).
  { rewrite findall_literal by reflexivity. f_equal.
    change (Py.chars "") with (@nil ascii). rewrite word_search_empty.
    unfold Py.lower. rewrite chars_str.
    induction (Py.chars (nc_text chunk)) as [| c l IH]; simpl.
    - reflexivity.
    - rewrite lower_char_is_word, IH. reflexivity. }
  split; [exact Hf |].
  intros Hdep Hw. split; [| reflexivity].
  unfold scan_chunk. rewrite Hdep.
  cbn [pattern_list map scan_patterns]. rewrite Hf, Hw. reflexivity.
Qed.

Lemma empty_entity_witness :
  scan_chunk Samples.re_other Samples.bot_sentence (Str "P1")
    (pattern_list [""]) Samples.bot_chunk
  = Ok [make_row Samples.bot_sentence Samples.bot_chunk (Str "P1")
          (pattern_of "")]
  /\ original_term (make_row Samples.bot_sentence Samples.bot_chunk (Str "P1")
                     (pattern_of "")) = "".
Proof.
  apply (empty_entity_matches_every_word Samples.re_other
           Samples.bot_sentence (Str "P1") Samples.bot_chunk).
  - vm_compute. reflexivity.
  - reflexivity.
  - vm_compute. reflexivity.
Defined.

End EmptyEntity.

(** * Further properties of the scorer *)

Section Recenter.

Import Scorer.

Local Open Scope Z_scope.

Lemma clamp_index_inside (len i : Z) :
  0 <= i <= len -> Py.clamp_index len i = i.
Proof.
  intros H. unfold Py.clamp_index.
  destruct (Z.ltb_spec i 0); lia.
Qed.

Lemma clamp_index_negative (len i : Z) :
  i < 0 -> 0 <= len -> Py.clamp_index len i = Z.max 0 (i + len).
Proof.
  intros H Hl. unfold Py.clamp_index.
  destruct (Z.ltb_spec i 0); lia.
Qed.

Lemma slice_inside (A : Type) (l : list A) (a b : Z) :
  0 <= a <= b -> b <= Z.of_nat (length l) ->
  Py.slice l a b = firstn (Z.to_nat (b - a)) (skipn (Z.to_nat a) l).
Proof.
  intros Ha Hb. unfold Py.slice.
  rewrite !clamp_index_inside by lia. reflexivity.
Qed.

Lemma reshape_ok (t : list Z) :
  length t = 512%nat -> reshape_1_512 t = Ok t.
Proof. intros H. unfold reshape_1_512. rewrite H. reflexivity. Qed.

Lemma reshape_fails (t : list Z) :
  length t <> 512%nat -> reshape_1_512 t = Raise RuntimeError.
Proof.
  intros H. unfold reshape_1_512.
  destruct (Nat.eqb_spec (length t) 512); [contradiction | reflexivity].
Qed.

(** X14: The window of lines 51 to 54, for a mask at position [p0] of [temp].
    It exists in two cases only.  When at least 256 tokens precede the mask
    and at least 256 start at it, the window is the 512 tokens from
    [p0 - 256] on and the mask sits at index 256.  When fewer than 256
    tokens start at the mask and the sequence has 512 tokens or more, the
    window is the last 512 tokens.  In the two remaining cases (fewer than
    256 tokens before the mask, or a short sequence) the reshape raises. *)
Theorem recenter_window (temp : list Z) (p0 : Z) :
  0 <= p0 < Z.of_nat (length temp) ->
  (256 <= p0 -> p0 + 256 <= Z.of_nat (length temp) ->
   recenter temp p0 = Ok (firstn 512 (skipn (Z.to_nat (p0 - 256)) temp))
   /\ length (firstn 512 (skipn (Z.to_nat (p0 - 256)) temp)) = 512%nat
   /\ nth_error (firstn 512 (skipn (Z.to_nat (p0 - 256)) temp)) 256
      = nth_error temp (Z.to_nat p0))
  /\ (p0 < 256 -> p0 + 256 <= Z.of_nat (length temp) ->
      recenter temp p0 = Raise RuntimeError)
  /\ (Z.of_nat (length temp) < p0 + 256 -> 512 <= Z.of_nat (length temp) ->
      recenter temp p0 = Ok (skipn (length temp - 512) temp)
      /\ length (skipn (length temp - 512) temp) = 512%nat
      /\ nth_error (skipn (length temp - 512) temp)
           (Z.to_nat (p0 - (Z.of_nat (length temp) - 512)))
         = nth_error temp (Z.to_nat p0))
  /\ (Z.of_nat (length temp) < p0 + 256 -> Z.of_nat (length temp) < 512 ->
      recenter temp p0 = Raise RuntimeError).
Proof.
  intros Hp. unfold recenter.
  split; [| split; [| split]].
  - intros H256 Hend.
    destruct (Z.gtb_spec (p0 + 256) (Z.of_nat (length temp))); [lia |].
    rewrite slice_inside by lia.
    replace (Z.to_nat (p0 + 256 - (p0 - 256))) with 512%nat by lia.
    assert (Hlen : length (firstn 512 (skipn (Z.to_nat (p0 - 256)) temp))
                   = 512%nat).
    { rewrite length_firstn, length_skipn. lia. }
    split; [apply reshape_ok; exact Hlen |]. split; [exact Hlen |].
    rewrite nth_error_firstn. cbn [Nat.ltb Nat.leb].
    rewrite nth_error_skipn. f_equal. lia.
  - intros H256 Hend.
    destruct (Z.gtb_spec (p0 + 256) (Z.of_nat (length temp))); [lia |].
    apply reshape_fails. unfold Py.slice.
    rewrite (clamp_index_negative _ (p0 - 256)) by lia.
    rewrite (clamp_index_inside _ (p0 + 256)) by lia.
    rewrite length_firstn, length_skipn. lia.
  - intros Hend H512.
    destruct (Z.gtb_spec (p0 + 256) (Z.of_nat (length temp))); [| lia].
    unfold Py.slice_from, Py.slice.
    rewrite (clamp_index_negative _ (-512)) by lia.
    rewrite (clamp_index_inside _ (Z.of_nat (length temp))) by lia.
    replace (Z.to_nat (Z.max 0 (-512 + Z.of_nat (length temp))))
      with (length temp - 512)%nat by lia.
    replace (Z.to_nat (Z.of_nat (length temp)
                       - Z.max 0 (-512 + Z.of_nat (length temp))))
      with 512%nat by lia.
    assert (Hlen : length (skipn (length temp - 512) temp) = 512%nat).
    { rewrite length_skipn. lia. }
    rewrite firstn_all2 by lia.
    split; [apply reshape_ok; exact Hlen |]. split; [exact Hlen |].
    rewrite nth_error_skipn. f_equal. lia.
  - intros Hend H512.
    destruct (Z.gtb_spec (p0 + 256) (Z.of_nat (length temp))); [| lia].
    apply reshape_fails. unfold Py.slice_from, Py.slice.
    rewrite (clamp_index_negative _ (-512)) by lia.
    rewrite (clamp_index_inside _ (Z.of_nat (length temp))) by lia.
    rewrite length_firstn, length_skipn. lia.
Qed.

Lemma recenter_window_witness :
  recenter ScorerSamples.early_ids 100 = Raise RuntimeError.
Proof.
  assert (Hp : 0 <= 100 < Z.of_nat (length ScorerSamples.early_ids))
    by (vm_compute; split; [discriminate | reflexivity]).
  destruct (recenter_window ScorerSamples.early_ids 100 Hp) as (_ & H & _).
  apply H.
  - reflexivity.
  - vm_compute. discriminate.
Defined.

End Recenter.

Section VocabularyAndExceptions.

Import Scorer ScorerSpec.

Lemma lookup_vocab_cases (tokenizer : Tokenizer) (x : string) :
  (exists i, lookup_vocab tokenizer x = Ok i /\ get_vocab tokenizer x = Some i)
  \/ (lookup_vocab tokenizer x = Raise KeyError /\ get_vocab tokenizer x = None).
Proof.
  unfold lookup_vocab. destruct (get_vocab tokenizer x) as [i |].
  - left. exists i. auto.
  - right. auto.
Qed.

Lemma mapM_lookup_missing (tokenizer : Tokenizer) (l : list string) (t : string) :
  In t l -> get_vocab tokenizer t = None ->
  mapM (lookup_vocab tokenizer) l = Raise KeyError.
Proof.
  induction l as [| x l IH]; intros Hin Ht.
  - contradiction Hin.
  - cbn [mapM].
    destruct (lookup_vocab_cases tokenizer x) as [[i [Hi Hv]] | [Hr _]].
    + rewrite Hi. cbn [bind]. destruct Hin as [-> | Hin]; [congruence |].
      rewrite (IH Hin Ht). reflexivity.
    + rewrite Hr. reflexivity.
Qed.

(** X16: When the tokenizer's vocabulary lacks one of the pronouns, every
    prediction raises [KeyError], before the sentence is even tokenized:
    no sentence can be scored, with or without a mask, whatever the model
    would answer. *)
Theorem missing_pronoun_is_key_error
    (tokenizer : Tokenizer) (model : list Z -> result (list (list R)))
    (softmax : list R -> list R)
    (uninit : nat -> nat -> R) (t : string) :
  In t terms ->
  get_vocab tokenizer t = None ->
  (forall alloc sent,
      get_prediction tokenizer model softmax uninit alloc sent = Raise KeyError)
  /\ (forall sents, sents <> [] ->
        get_anthroscore tokenizer model softmax uninit sents = Raise KeyError).
Proof.
  intros Hin Ht.
  assert (Hp : forall alloc sent,
             get_prediction tokenizer model softmax uninit alloc sent = Raise KeyError).
  { intros alloc sent. unfold get_prediction.
    rewrite (mapM_lookup_missing tokenizer terms t Hin Ht). reflexivity. }
  split; [exact Hp |].
  intros sents Hne. rewrite get_anthroscore_stack by exact Hne.
  destruct sents as [| x rest]; [contradiction Hne; reflexivity |].
  cbn [predict_from]. rewrite Hp. reflexivity.
Qed.

Lemma missing_pronoun_witness :
  get_anthroscore MoreSamples.small_tokenizer ScorerSamples.model
    ScorerSamples.softmax ScorerSamples.uninit [ScorerSamples.masked] = Raise KeyError.
Proof.
  destruct (missing_pronoun_is_key_error MoreSamples.small_tokenizer
              ScorerSamples.model ScorerSamples.softmax ScorerSamples.uninit "Its"%string) as [_ H].
  - vm_compute. repeat (try (left; reflexivity); right).
  - reflexivity.
  - apply H. discriminate.
Defined.

(** X18: The loop has no handler: the exception of the first sentence whose
    prediction raises ends [get_anthroscore], and with it the scoring stage
    of [main]; the rows stacked so far are lost and the sentences after it
    are not looked at. *)
Theorem scoring_stops_at_first_exception
    (tokenizer : Tokenizer) (model : list Z -> result (list (list R)))
    (softmax : list R -> list R)
    (uninit : nat -> nat -> R)
    (before after : list string) (x : string) (vb : list (list R)) (e : exn) :
  predict_from tokenizer model softmax uninit 0 before = Ok vb ->
  get_prediction tokenizer model softmax uninit (S (length before)) x = Raise e ->
  get_anthroscore tokenizer model softmax uninit (before ++ x :: after) = Raise e
  /\ (forall np_log df,
        map Extractor.masked_sentence df = before ++ x :: after ->
        Main.main_scores tokenizer model softmax uninit np_log df = Raise e).
Proof.
  intros Hb Hx.
  assert (Hg : get_anthroscore tokenizer model softmax uninit (before ++ x :: after)
               = Raise e).
  { rewrite get_anthroscore_stack by (destruct before; discriminate).
    rewrite predict_from_app, Hb. cbn [bind predict_from Nat.add].
    rewrite Hx. reflexivity. }
  split; [exact Hg |].
  intros np_log df Hdf. unfold Main.main_scores. rewrite Hdf, Hg. reflexivity.
Qed.

Lemma scoring_stops_witness :
  get_anthroscore ScorerSamples.tokenizer MoreSamples.failing_model
    ScorerSamples.softmax ScorerSamples.uninit
    ([ScorerSamples.unmasked] ++ ScorerSamples.masked :: [ScorerSamples.unmasked])
  = Raise LibraryError.
Proof.
  destruct (scoring_stops_at_first_exception ScorerSamples.tokenizer
              MoreSamples.failing_model ScorerSamples.softmax ScorerSamples.uninit
              [ScorerSamples.unmasked] [ScorerSamples.unmasked]
              ScorerSamples.masked
              [np_empty ScorerSamples.uninit 1 (length terms)]
              LibraryError) as [H _].
  - reflexivity.
  - reflexivity.
  - exact H.
Defined.

End VocabularyAndExceptions.

Section SeedRow.

Import Scorer ScorerSpec.

Variable tokenizer : Tokenizer.
Variable model : list Z -> result (list (list R)).
Variable softmax : list R -> list R.
Variables u1 u2 : nat -> nat -> R.
Variable np_log : R -> R.
Hypothesis same_after_seed : forall a j, u1 (S a) j = u2 (S a) j.

Lemma get_prediction_same (a : nat) (sent : string) :
  get_prediction tokenizer model softmax u1 (S a) sent
  = get_prediction tokenizer model softmax u2 (S a) sent.
Proof.
  unfold get_prediction.
  destruct (mapM (lookup_vocab tokenizer) terms); [| reflexivity].
  cbn [bind]. destruct (locate_mask tokenizer sent) as [[[ids pos] |] | e];
    try reflexivity.
  cbn [bind]. unfold np_empty. f_equal. apply map_ext. intros j.
  apply same_after_seed.
Qed.

Lemma predict_from_same (sents : list string) (i : nat) :
  predict_from tokenizer model softmax u1 i sents
  = predict_from tokenizer model softmax u2 i sents.
Proof.
  revert i. induction sents as [| x rest IH]; intros i.
  - reflexivity.
  - cbn [predict_from]. rewrite get_prediction_same, IH. reflexivity.
Qed.

Lemma main_scores_same (df : list Extractor.SentenceMatch) :
  Main.main_scores tokenizer model softmax u1 np_log df
  = Main.main_scores tokenizer model softmax u2 np_log df.
Proof.
  unfold Main.main_scores.
  destruct df as [| row df'].
  - reflexivity.
  - rewrite !get_anthroscore_stack by discriminate.
    rewrite predict_from_same.
    destruct (predict_from tokenizer model softmax u2 0
                (map Extractor.masked_sentence (row :: df'))) as [vs | e];
      [| reflexivity].
    cbn [bind]. rewrite !anthroscore_column_rows. reflexivity.
Qed.

End SeedRow.

Section SeedRowTheorem.

Import Scorer ScorerSpec.

(** X19: What the uninitialised seed row of the stacked matrix happens to hold
    has no influence on the result: two runs that differ only in that
    memory give the same scores, or stop with the same exception. *)
Theorem scores_ignore_the_seed_row
    (tokenizer : Tokenizer) (model : list Z -> result (list (list R)))
    (softmax : list R -> list R)
    (u1 u2 : nat -> nat -> R) (np_log : R -> R)
    (df : list Extractor.SentenceMatch) :
  (forall a j, u1 (S a) j = u2 (S a) j) ->
  Main.main_scores tokenizer model softmax u1 np_log df
  = Main.main_scores tokenizer model softmax u2 np_log df.
Proof.
  intros H. apply main_scores_same. exact H.
Qed.

Lemma scores_ignore_the_seed_row_witness :
  Main.main_scores ScorerSamples.tokenizer ScorerSamples.model
    ScorerSamples.softmax ScorerSamples.uninit ScorerSamples.np_log
    [Samples.bot_row]
  = Main.main_scores ScorerSamples.tokenizer ScorerSamples.model
      ScorerSamples.softmax
      (fun a j => match a with O => 7%R | S _ => 0%R end)
      ScorerSamples.np_log [Samples.bot_row].
Proof.
  apply scores_ignore_the_seed_row.
  intros a j. reflexivity.
Defined.

End SeedRowTheorem.

(** * Further properties of [main] *)

Section RstripFacts.

Variable A : Type.
Variable set : A -> bool.

(** [rstrip] removes characters of the set from the end, and only those;
    what is left does not end with one. *)
Lemma rstrip_decompose (l : list A) :
  exists q, l = Py.rstrip set l ++ q
            /\ forallb set q = true
            /\ (forall c, hd_error (rev (Py.rstrip set l)) = Some c ->
                          set c = false).
Proof.
  destruct (lstrip_decompose _ set (rev l)) as [p [Hp Hs]].
  exists (rev p). unfold Py.rstrip. split; [| split].
  - rewrite <- (rev_involutive l) at 1. rewrite Hp at 1.
    apply rev_app_distr.
  - rewrite forallb_rev_iff. exact Hs.
  - intros c Hc. rewrite rev_involutive in Hc.
    apply (lstrip_head _ set (rev l) c Hc).
Qed.

End RstripFacts.

Section EntityFile.

Import Extractor Main MoreSpec.

Local Open Scope string_scope.

(** X20: With [--entity_filename], the entities are the lines of the file in
    order, one per line, each without its trailing newline characters and
    nothing else removed: a line is its entity followed by newlines only,
    and the entity does not end with a newline.  A blank line gives the
    empty entity.  (The lines are those of a file opened in text mode:
    Python has already turned every line ending into a newline.) *)
Theorem entities_are_the_lines_of_the_file
    (read_lines : string -> result (list string))
    (args : Args) (lines : list string) :
  0 < String.length (entity_filename args) ->
  read_lines (entity_filename args) = Ok lines ->
  exists es,
    main_entities read_lines args = Ok (Some es)
    /\ length es = length lines
    /\ forall i line,
         nth_error lines i = Some line ->
         exists e q,
           nth_error es i = Some e
           /\ Py.chars line = (Py.chars e ++ q)%list
           /\ forallb (Py.mem_chars newline) q = true
           /\ (forall c, hd_error (rev (Py.chars e)) = Some c ->
                         Py.mem_chars newline c = false).
Proof.
  intros Hname Hread. unfold main_entities.
  apply Nat.ltb_lt in Hname. rewrite Hname, Hread. cbn [bind].
  eexists. split; [reflexivity |]. split; [apply length_map |].
  intros i line Hi.
  destruct (rstrip_decompose _ (Py.mem_chars newline) (Py.chars line))
    as [q (Hd & Hq & Hlast)].
  exists (Py.str_rstrip line newline), q.
  split; [rewrite nth_error_map, Hi; reflexivity |].
  unfold Py.str_rstrip. rewrite chars_str.
  split; [exact Hd |]. split; [exact Hq | exact Hlast].
Qed.

End EntityFile.

Section CompletedRuns.

Import Extractor Scorer ScorerSpec Main.

Local Open Scope string_scope.

Lemma main_scores_rows
    (tokenizer : Tokenizer) (model : list Z -> result (list (list R)))
    (softmax : list R -> list R)
    (uninit : nat -> nat -> R) (np_log : R -> R)
    (df : list SentenceMatch) (out : list (SentenceMatch * Np.float)) :
  main_scores tokenizer model softmax uninit np_log df = Ok out ->
  df <> [] /\ map fst out = df.
Proof.
  unfold main_scores. intros H.
  bind_inv_as H bertscores Hget. bind_inv_as H column Hcol.
  assert (Hne : df <> []).
  { intros E. subst df. unfold get_anthroscore in Hget.
    cbn [map score_rows] in Hget. injection Hget as <-. discriminate Hcol. }
  split; [exact Hne |].
  destruct (Nat.eqb_spec (length column) (length df)) as [Hlen |];
    [| discriminate H].
  injection H as <-. apply map_fst_combine. symmetry. exact Hlen.
Qed.

(** X21: A run of [main] that completes went through every stage: both paths
    were given and end in [.csv]; the extractor found at least one match in
    the input file; and the rows written at the end are the rows read back
    from the output file, in order, each with its score.  In particular no
    completed run has an empty result. *)
Theorem completed_run_of_main
    (read_csv : string -> result DataFrame)
    (read_lines : string -> result (list string))
    (nlp : string -> result Doc)
    (re_other : string -> string -> result bool)
    (tokenizer : Tokenizer) (model : list Z -> result (list (list R)))
    (softmax : list R -> list R)
    (uninit : nat -> nat -> R) (np_log : R -> R)
    (reload : string -> list SentenceMatch -> result (list SentenceMatch))
    (cl : CommandLine) (out : list (SentenceMatch * Np.float)) :
  main read_csv read_lines nlp re_other tokenizer model softmax uninit np_log reload cl
  = Ok out ->
  exists inp o es table df,
    cl_input_file cl = Some inp /\ Py.last4 inp = ".csv"
    /\ cl_output_file cl = Some o /\ Py.last4 o = ".csv"
    /\ es <> []
    /\ parse_sentences_from_file read_csv nlp re_other inp es
         (cl_text_column_name cl) (with_default "" (cl_text_id_name cl))
       = Ok table
    /\ table <> []
    /\ reload o table = Ok df
    /\ main_scores tokenizer model softmax uninit np_log df = Ok out
    /\ map fst out = df
    /\ out <> [].
Proof.
  unfold main. intros H.
  bind_inv_as H args Ha. bind_inv_as H paths Hp.
  bind_inv_as H ents He. bind_inv_as H table Ht. bind_inv_as H df Hd.
  destruct paths as [inp o]. cbn [fst snd] in *.
  destruct ents as [es |]; [| discriminate Ht].
  destruct (main_paths_Ok _ _ _ Hp) as (Hin & Hcsv1 & Hcsv2 & Hout).
  destruct (parse_args_output _ _ Ha) as [Ho Hi].
  assert (Htcol : text_column_name args = cl_text_column_name cl
                  /\ text_id_name args = with_default "" (cl_text_id_name cl)).
  { unfold parse_args in Ha.
    destruct (entity_options_conflict cl || entities_lack_values cl);
      [discriminate Ha |].
    injection Ha as <-. split; reflexivity. }
  destruct Htcol as [Htc Hti]. rewrite Htc, Hti in Ht.
  destruct (table_and_entities_nonempty _ _ _ _ _ _ _ _ Ht) as [Htne Hene].
  destruct (main_scores_rows _ _ _ _ _ _ _ H) as [Hdf Hfst].
  exists inp, o, es, table, df.
  split; [congruence |]. split; [exact Hcsv1 |].
  split.
  { destruct Hout as [Hsome | [Hnone _]]; [| congruence].
    rewrite Ho in Hsome. injection Hsome as Hd'.
    destruct (cl_output_file cl) as [given |].
    - cbn [with_default] in Hd'. congruence.
    - cbn [with_default] in Hd'. subst o. vm_compute in Hcsv2.
      discriminate Hcsv2. }
  split; [exact Hcsv2 |]. split; [exact Hene |]. split; [exact Ht |].
  split; [exact Htne |]. split; [exact Hd |]. split; [exact H |].
  split; [exact Hfst |].
  intros E. rewrite E in Hfst. apply Hdf. symmetry. exact Hfst.
Qed.

(** X22: Without [--entities] and without [--entity_filename] the run passes the
    checks of the paths and then stops with a [TypeError], before the input
    file is read: nothing the files, the parser or the model would do
    matters. *)
Theorem run_without_entities_is_type_error
    (read_csv : string -> result DataFrame)
    (read_lines : string -> result (list string))
    (nlp : string -> result Doc)
    (re_other : string -> string -> result bool)
    (tokenizer : Tokenizer) (model : list Z -> result (list (list R)))
    (softmax : list R -> list R)
    (uninit : nat -> nat -> R) (np_log : R -> R)
    (reload : string -> list SentenceMatch -> result (list SentenceMatch))
    (cl : CommandLine) (inp o : string) :
  cl_entities cl = None ->
  cl_entity_filename cl = None ->
  cl_input_file cl = Some inp -> Py.last4 inp = ".csv" ->
  cl_output_file cl = Some o -> Py.last4 o = ".csv" ->
  main read_csv read_lines nlp re_other tokenizer model softmax uninit np_log reload cl
  = Raise TypeError.
Proof.
  intros He Hf Hi Hic Ho Hoc. unfold main, parse_args.
  unfold entity_options_conflict, entities_lack_values.
  rewrite He, Hf. cbn [orb bind]. unfold main_paths.
  cbn [output_file input_file]. rewrite Ho, Hi. cbn [with_default bind].
  unfold py_assert. rewrite Hic, Hoc. cbn [String.eqb bind].
  replace (String.eqb ".csv" ".csv") with true by reflexivity.
  cbn [bind]. unfold main_entities. cbn [entity_filename entities with_default].
  cbn [String.length Nat.ltb Nat.leb bind]. reflexivity.
Qed.

End CompletedRuns.

Section MainWitnesses.

Import Extractor Main MoreSpec.

Local Open Scope string_scope.

Lemma entities_file_witness :
  exists es,
    main_entities (fun _ => Ok ["system" ++ newline; "model"])
      {| input_file := Some "in.csv"; text_column_name := "abstract";
         entities := None; entity_filename := "entities.txt";
         output_file := Some "out.csv"; text_id_name := "" |}
    = Ok (Some es)
    /\ length es = 2.
Proof.
  destruct (entities_are_the_lines_of_the_file
              (fun _ => Ok ["system" ++ newline; "model"])
              {| input_file := Some "in.csv"; text_column_name := "abstract";
                 entities := None; entity_filename := "entities.txt";
                 output_file := Some "out.csv"; text_id_name := "" |}
              ["system" ++ newline; "model"])
    as [es (H1 & H2 & _)].
  - vm_compute. lia.
  - reflexivity.
  - exists es. split; assumption.
Defined.

Lemma run_without_entities_witness :
  main Samples.read_csv (fun _ => Raise LibraryError) Samples.nlp
    Samples.re_other ScorerSamples.tokenizer ScorerSamples.model
    ScorerSamples.softmax ScorerSamples.uninit ScorerSamples.np_log
    (fun _ t => Ok t) MoreSamples.no_entities
  = Raise TypeError.
Proof.
  apply (run_without_entities_is_type_error _ _ _ _ _ _ _ _ _ _
           MoreSamples.no_entities "example/acl_50.csv" "example/results.csv");
    reflexivity.
Defined.

Lemma completed_run_witness :
  exists inp o es table df,
    cl_input_file MoreSamples.bot_run = Some inp /\ Py.last4 inp = ".csv"
    /\ cl_output_file MoreSamples.bot_run = Some o /\ Py.last4 o = ".csv"
    /\ es <> []
    /\ parse_sentences_from_file Samples.read_csv Samples.nlp Samples.re_other
         inp es "abstract" "acl_id" = Ok table
    /\ table <> []
    /\ MoreSamples.reload o table = Ok df
    /\ main_scores ScorerSamples.tokenizer ScorerSamples.model
         ScorerSamples.softmax ScorerSamples.uninit ScorerSamples.np_log df
       = Ok [(Samples.bot_row, Scorer.row_score ScorerSamples.np_log
          (ScorerSamples.softmax (repeat 0%R 19)))]
    /\ map fst [(Samples.bot_row,
                 Scorer.row_score ScorerSamples.np_log
          (ScorerSamples.softmax (repeat 0%R 19)))] = df
    /\ [(Samples.bot_row, Scorer.row_score ScorerSamples.np_log
          (ScorerSamples.softmax (repeat 0%R 19)))] <> [].
Proof.
  apply (completed_run_of_main Samples.read_csv MoreSamples.no_lines
           Samples.nlp Samples.re_other ScorerSamples.tokenizer
           ScorerSamples.model ScorerSamples.softmax ScorerSamples.uninit
           ScorerSamples.np_log MoreSamples.reload
           MoreSamples.bot_run).
  reflexivity.
Defined.

End MainWitnesses.

(** * Rows that are skipped, rows that stop the run, and the mask used *)

Section RowsMore.

Import Extractor ExtractorSpec.

Local Open Scope string_scope.

Variable nlp : string -> result Doc.
Variable re_other : string -> string -> result bool.

Lemma filter_keeps (A : Type) (f : A -> bool) (before after : list A) (k : A) :
  f k = true ->
  filter f (before ++ k :: after)%list
  = (filter f before ++ k :: filter f after)%list.
Proof. intros H. rewrite filter_app. cbn [filter]. rewrite H. reflexivity. Qed.

(** X6: A row whose text is empty or holds white space only gives no row, and
    the parser is not called on it: when its identifier can be looked up,
    the run ends as if the row were not in the file. *)
Theorem blank_text_row_is_skipped
    (read1 read2 : string -> result DataFrame)
    (input : string) (entities : list string) (tcol idcol : string)
    (cols : list string) (before after : list (list cell)) (k : list cell)
    (t : string) (tid : cell) :
  read1 input = Ok {| df_columns := cols; df_rows := before ++ k :: after |} ->
  read2 input = Ok {| df_columns := cols; df_rows := before ++ after |} ->
  row_get cols k tcol = Ok (Str t) ->
  Py.truthy (Py.str_strip_ws t) = false ->
  text_id_of input cols idcol k = Ok tid ->
  parse_sentences_from_file read1 nlp re_other input entities tcol idcol
  = parse_sentences_from_file read2 nlp re_other input entities tcol idcol.
Proof.
  intros H1 H2 Hk Hblank Htid. unfold parse_sentences_from_file.
  rewrite H1, H2. cbn [bind]. unfold dropna. cbn [df_columns df_rows].
  assert (Hscan : scan_row nlp re_other input (pattern_list entities) cols
                    tcol idcol k = Ok []).
  { unfold scan_row. rewrite Hk, Htid. cbn [bind]. rewrite Hblank. reflexivity. }
  unfold row_get in Hk.
  destruct (column_index tcol cols) as [i |]; [| reflexivity].
  destruct (nth_error k i) as [c |] eqn:Hc; [| discriminate Hk].
  injection Hk as ->. cbn [bind df_columns df_rows].
  rewrite filter_keeps by (rewrite (nth_error_nth _ _ NaN Hc); reflexivity).
  rewrite filter_app, !mapM_app. cbn [mapM]. rewrite Hscan. cbn [bind].
  destruct (mapM _ (filter _ before)) as [ra | e]; [| reflexivity].
  cbn [bind].
  destruct (mapM _ (filter _ after)) as [rb | e]; [| reflexivity].
  cbn [bind]. rewrite !concat_app. reflexivity.
Qed.

(** X7: The first row of the file decides when it fails: a text that is not a
    string (a numeric column taken as text column) ends the run with an
    [AttributeError], and an exception of the parser on a non-blank text
    ends it with that exception.  The rows after it are not processed. *)
Theorem first_row_failure_ends_the_run
    (read_csv : string -> result DataFrame)
    (input : string) (entities : list string) (tcol idcol : string)
    (cols : list string) (k : list cell) (rest : list (list cell))
    (tid : cell) :
  read_csv input = Ok {| df_columns := cols; df_rows := k :: rest |} ->
  text_id_of input cols idcol k = Ok tid ->
  (forall z, row_get cols k tcol = Ok (Num z) ->
     parse_sentences_from_file read_csv nlp re_other input entities tcol idcol
     = Raise AttributeError)
  /\ (forall t e, row_get cols k tcol = Ok (Str t) ->
        Py.truthy (Py.str_strip_ws t) = true ->
        nlp t = Raise e ->
        parse_sentences_from_file read_csv nlp re_other input entities tcol idcol
        = Raise e).
Proof.
  intros Hread Htid.
  assert (Hgen : forall c x,
             row_get cols k tcol = Ok c -> is_nan c = false ->
             scan_row nlp re_other input (pattern_list entities) cols
               tcol idcol k = Raise x ->
             parse_sentences_from_file read_csv nlp re_other input entities
               tcol idcol = Raise x).
  { intros c x Hk Hnan Hscan. unfold parse_sentences_from_file.
    rewrite Hread. cbn [bind]. unfold dropna. cbn [df_columns df_rows].
    unfold row_get in Hk.
    destruct (column_index tcol cols) as [i |]; [| discriminate Hk].
    destruct (nth_error k i) as [c' |] eqn:Hc; [| discriminate Hk].
    injection Hk as ->. cbn [bind df_columns df_rows filter].
    rewrite (nth_error_nth _ _ NaN Hc), Hnan. cbn [negb].
    rewrite (mapM_head_Raise _ _ _ _ _ _ Hscan). reflexivity. }
  split.
  - intros z Hk. apply (Hgen (Num z) AttributeError Hk eq_refl).
    unfold scan_row. rewrite Hk, Htid. reflexivity.
  - intros t e Hk Ht He. apply (Hgen (Str t) e Hk eq_refl).
    unfold scan_row. rewrite Hk, Htid. cbn [bind]. rewrite Ht, He. reflexivity.
Qed.

End RowsMore.

Section RowsMoreWitnesses.

Import Extractor.

Local Open Scope string_scope.

Lemma blank_text_row_witness :
  parse_sentences_from_file MoreSamples.read_blank Samples.nlp Samples.re_other
    "in.csv" ["model"] "abstract" "acl_id"
  = parse_sentences_from_file MoreSamples.read_no_nan Samples.nlp
      Samples.re_other "in.csv" ["model"] "abstract" "acl_id".
Proof.
  apply (blank_text_row_is_skipped Samples.nlp Samples.re_other
           MoreSamples.read_blank MoreSamples.read_no_nan
           "in.csv" ["model"] "abstract" "acl_id"
           ["acl_id"; "abstract"]
           [[Str "P1"; Str Samples.bot_text]]
           [[Str "P3"; Str Samples.model_text]]
           [Str "P0"; Str "   "] "   " (Str "P0")).
  - reflexivity.
  - reflexivity.
  - reflexivity.
  - vm_compute. reflexivity.
  - reflexivity.
Defined.

Lemma first_row_failure_witness :
  parse_sentences_from_file MoreSamples.read_numeric Samples.nlp
    Samples.re_other "in.csv" ["bot"] "abstract" "acl_id"
  = Raise AttributeError.
Proof.
  destruct (first_row_failure_ends_the_run Samples.nlp Samples.re_other
              MoreSamples.read_numeric "in.csv" ["bot"] "abstract" "acl_id"
              ["acl_id"; "abstract"] [Str "P9"; Num 2021]
              [[Str "P1"; Str Samples.bot_text]] (Str "P9")) as [H _].
  - reflexivity.
  - reflexivity.
  - apply (H 2021%Z). reflexivity.
Defined.

End RowsMoreWitnesses.

Section FirstMask.

Import Scorer ScorerSpec.

Local Open Scope Z_scope.





End FirstMask.
